(** * Character cards: extraction of the metadata embedded in JSON, PNG and WebP files

    A shallow embedding of [src/index.ts] (class [Character] and its static
    method [fromFile]) together with the properties of the extraction chain.

    The third-party packages the module imports ([exifreader], [json5],
    [png-chunk-text], [png-chunks-encode], [png-chunks-extract]) and the
    platform built-ins it calls ([JSON.parse], [Buffer], [TextDecoder],
    [File]) are collected in the record [Host]: every theorem holds for an
    arbitrary host, and the examples run on the host [Sample.host]. *)

From Stdlib Require Import ZArith String Ascii List Bool Lia.
From stdpp Require Import base option list strings gmap.

Local Open Scope string_scope.
Local Open Scope Z_scope.

(** ** JavaScript values *)

(** The values [JSON.parse] and [json5.parse] produce, as far as the module
    looks into them.  Numbers are restricted to integers: the module only
    tests numbers for truthiness.  An object is the list of its own
    properties, each key occurring at most once. *)
#[warnings="-register-all"]
Inductive value : Type :=
  | Undefined
  | Null
  | Boolean (b : bool)
  | Number (n : Z)
  | Str (s : string)
  | Array (elements : list value)
  | Object (properties : list (string * value)).

(** What a [throw] carries. *)
Inductive Error : Type :=
  | Error_ (message : string)   (* new Error(message) *)
  | SyntaxError                 (* raised by JSON.parse and json5.parse *)
  | TypeError                   (* property read on null or undefined *)
  | CodecError (message : string). (* raised by the PNG and EXIF packages *)

(** The completion of an expression: a value, or an exception. *)
Inductive Completion (A : Type) : Type :=
  | Normal (a : A)
  | Throw (e : Error).
Arguments Normal {A} a.
Arguments Throw {A} e.

#[global] Instance Completion_ret : MRet Completion := @Normal.
#[global] Instance Completion_bind : MBind Completion :=
  fun A B f m => match m with Normal a => f a | Throw e => Throw e end.

Module Js.

(** [!!v] *)
Definition truthy (v : value) : bool :=
  match v with
  | Undefined | Null => false
  | Boolean b => b
  | Number n => negb (n =? 0)
  | Str s => negb (String.eqb s "")
  | Array _ | Object _ => true
  end.

(** [v === s] for a string literal [s] *)
Definition strict_eq_str (v : value) (s : string) : bool :=
  match v with
  | Str s' => String.eqb s' s
  | _ => false
  end.

Fixpoint lookup_property (k : string) (ps : list (string * value)) : option value :=
  match ps with
  | [] => None
  | (k', v) :: ps' => if String.eqb k' k then Some v else lookup_property k ps'
  end.

(** [v.k] for a key [k] that no prototype defines: a [TypeError] on
    [null] and [undefined], the own property of an object, [undefined]
    everywhere else. *)
Definition get (v : value) (k : string) : Completion value :=
  match v with
  | Undefined | Null => Throw TypeError
  | Object ps => Normal (default Undefined (lookup_property k ps))
  | _ => Normal Undefined
  end.

(** [a || b] *)
Definition or (a b : value) : value := if truthy a then a else b.

(** [o[k] = v] on the property list of an object. *)
Fixpoint set_property (k : string) (v : value) (ps : list (string * value))
  : list (string * value) :=
  match ps with
  | [] => [(k, v)]
  | (k', v') :: ps' =>
      if String.eqb k' k then (k, v) :: ps' else (k', v') :: set_property k v ps'
  end.

(** [s.split(c)] for a one-character separator. *)
Fixpoint split (c : ascii) (s : string) : list string :=
  match s with
  | EmptyString => [EmptyString]
  | String a s' =>
      if Ascii.eqb a c then EmptyString :: split c s'
      else match split c s' with
           | [] => [String a EmptyString]
           | w :: ws => String a w :: ws
           end
  end.

(** [parts.join(sep)] *)
Fixpoint join (sep : string) (parts : list string) : string :=
  match parts with
  | [] => ""
  | [p] => p
  | p :: ps => p +:+ sep +:+ join sep ps
  end.

End Js.

(** ** The effects of [fromFile]

    [fromFile] awaits the content of the file and calls into the packages;
    a computation is the list of these events, in order, with its
    completion. *)
Inductive Event : Type :=
  | await_text
  | await_arrayBuffer
  | call_JSON_parse (text : string)
  | call_json5_parse (text : string)
  | call_pngExtract
  | call_decode (data : list Z)
  | call_pngEncode
  | call_load
  | call_TextDecoder_decode (bytes : list Z).

Definition IO (A : Type) : Type := (list Event * Completion A)%type.

#[global] Instance IO_ret : MRet IO := fun A a => ([], Normal a).
#[global] Instance IO_bind : MBind IO :=
  fun A B f m =>
    match m with
    | (t, Normal a) => let '(t', r) := f a in ((t ++ t')%list, r)
    | (t, Throw e) => (t, Throw e)
    end.

Definition throw {A : Type} (e : Error) : IO A := ([], Throw e).

(** An expression that leaves no event. *)
Definition evaluate {A : Type} (r : Completion A) : IO A := ([], r).

(** One event and its completion. *)
Definition perform {A : Type} (ev : Event) (r : Completion A) : IO A := ([ev], r).

(** [try { body } catch { handler }] *)
Definition try_catch {A : Type} (body : IO A) (handler : IO A) : IO A :=
  match body with
  | (t, Normal a) => (t, Normal a)
  | (t, Throw _) => let '(t', r) := handler in ((t ++ t')%list, r)
  end.

(** [xs.map(f)] for an [f] that may throw: the elements are visited in
    order and the first exception ends the loop. *)
Fixpoint map_io {A B : Type} (f : A -> IO B) (xs : list A) : IO (list B) :=
  match xs with
  | [] => mret []
  | x :: xs' => y ← f x; ys ← map_io f xs'; mret (y :: ys)
  end.

(** ** The data of the module *)

Module Png.
(** [PngChunk] of [types.d.ts]; the name is kept as the string the
    comparisons of [fromFile] read. *)
Record Chunk : Type := { name : string; data : list Z }.
(** The result of [decode] of [png-chunk-text]. *)
Record Text : Type := { keyword : string; text : string }.
End Png.

Module Exif.
(** A tag of [exifreader], with the two members [fromFile] reads;
    [None] is a member that is missing. *)
Record Tag : Type := { description : option string; value : option (list string) }.
End Exif.

(** The [File] handed to [fromFile]. *)
Record File : Type := { type : string; content : list Z }.

(** The imports and built-ins of the module. *)
Record Host : Type := {
  (* JSON.parse(text) *)
  JSON_parse : string -> Completion value;
  (* json5.parse(text) *)
  json5_parse : string -> Completion value;
  (* pngExtract(data) *)
  pngExtract : list Z -> Completion (list Png.Chunk);
  (* pngEncode(chunks) *)
  pngEncode : list Png.Chunk -> Completion (list Z);
  (* decode(data) of png-chunk-text *)
  decode : list Z -> Completion Png.Text;
  (* load(buffer) of exifreader *)
  load : list Z -> Completion (gmap string Exif.Tag);
  (* await file.text() *)
  File_text : list Z -> string;
  (* Buffer.from(bytes).toString('base64') *)
  Buffer_toString_base64 : list Z -> string;
  (* Buffer.from(text, 'base64').toString('utf8') *)
  Buffer_from_base64_toString_utf8 : string -> string;
  (* new TextDecoder('utf-8', { ignoreBOM: true }).decode(bytes) *)
  TextDecoder_decode : list Z -> string;
  (* the element new Uint8Array([Number(token)]) holds, for a token that
     is not a string of decimal digits below 2^53 *)
  Number_toUint8 : string -> Z
}.

(** ** The module [index.ts] *)

(** [assertUnreachable(_)] *)
Definition assertUnreachable {A : Type} (_ : string) : IO A :=
  throw (Error_ "Statement should be unreachable").

Definition VALID_FILE_TYPES : list string :=
  ["application/json"; "image/png"; "image/webp"].

(** [type.split('/')[1]] is [undefined], printed as such by the template,
    when the type has no slash. *)
Definition VALID_FILE_EXTENSIONS : list string :=
  map (fun type => "." +:+ default "undefined" (Js.split "/" type !! 1%nat))
      VALID_FILE_TYPES.

Definition INPUT_ACCEPT : string := Js.join ", " VALID_FILE_EXTENSIONS.

(** The error of both "nothing found" exits of [fromFile]. *)
Definition NoMetadataFound : Error := Error_ "No character data found!".

(** An instance of the class: the public [metadata] and the private
    [fallbackAvatar]. *)
Record Character : Type := { metadata : value; fallbackAvatar : string }.

(** [new Character(metadata, fallbackAvatar)]; a second argument that is
    left out takes the default ['']. *)
Definition new_Character (metadata : value) (fallbackAvatar : option string) : Character :=
  {| metadata := metadata; fallbackAvatar := default "" fallbackAvatar |}.

(** [get avatar()] *)
Definition avatar (this : Character) : Completion value :=
  a ← Js.get (metadata this) "avatar";
  if Js.truthy a then
    a' ← Js.get (metadata this) "avatar";
    if negb (Js.strict_eq_str a' "none") then
      Js.get (metadata this) "avatar"
    else mret (Str (fallbackAvatar this))
  else mret (Str (fallbackAvatar this)).

(** [get description()] *)
Definition description (this : Character) : Completion value :=
  system_prompt ← Js.get (metadata this) "system_prompt";
  either ← (if Js.truthy system_prompt then mret system_prompt
            else Js.get (metadata this) "description");
  mret (Js.or either (Str "")).

(** [get name()] *)
Definition name (this : Character) : Completion value :=
  n ← Js.get (metadata this) "name";
  either ← (if Js.truthy n then mret n
            else Js.get (metadata this) "char_name");
  mret (Js.or either (Str "")).

(** *** [data.split(',').map(Number)] into a [Uint8Array] *)

Definition digit_of (a : ascii) : option Z :=
  let n := Z.of_N (N_of_ascii a) in
  if (48 <=? n) && (n <=? 57) then Some (n - 48) else None.

Fixpoint digits_value (acc : Z) (s : string) : option Z :=
  match s with
  | EmptyString => Some acc
  | String a s' =>
      match digit_of a with
      | Some d => digits_value (10 * acc + d) s'
      | None => None
      end
  end.

(** The value of a non-empty string of decimal digits. *)
Definition decimal (s : string) : option Z :=
  match s with
  | EmptyString => None
  | _ => digits_value 0 s
  end.

(** [Number(token)] stored into a [Uint8Array]: a string of decimal digits
    is its value, which a double holds exactly below 2^53, and the store
    keeps it modulo 256. *)
Definition toUint8 (h : Host) (token : string) : Z :=
  match decimal token with
  | Some n => if n <? 2 ^ 53 then n mod 256 else Number_toUint8 h token
  | None => Number_toUint8 h token
  end.

(** *** [fromFile] *)

Section FromFile.
Variable h : Host.

(** [case 'application/json'] *)
Definition fromJson (file : File) : IO Character :=
  rawText ← perform await_text (Normal (File_text h (content file)));
  card ← perform (call_JSON_parse rawText) (JSON_parse h rawText);
  mret (new_Character card None).

(** [case 'image/png'] *)
Definition fromPng (file : File) : IO Character :=
  rawBuffer ← perform await_arrayBuffer (Normal (content file));
  chunks ← perform call_pngExtract (pngExtract h rawBuffer);
  decoded ← map_io (fun d => perform (call_decode (Png.data d)) (decode h (Png.data d)))
                   (filter (fun chunk => Png.name chunk = "tEXt") chunks);
  match List.find (fun d => String.eqb (Png.keyword d) "chara") decoded with
  | None => throw NoMetadataFound
  | Some extChunk =>
      let payload := Buffer_from_base64_toString_utf8 h (Png.text extChunk) in
      card ← perform (call_JSON_parse payload) (JSON_parse h payload);
      let pngChunks := filter (fun chunk => Png.name chunk <> "tEXt") chunks in
      encoded ← perform call_pngEncode (pngEncode h pngChunks);
      let base64Avatar := "data:image/png;base64," +:+ Buffer_toString_base64 h encoded in
      spec_version ← evaluate (Js.get card "spec_version");
      if Js.strict_eq_str spec_version "2.0" then
        data ← evaluate (Js.get card "data");
        mret (new_Character data (Some base64Avatar))
      else mret (new_Character card (Some base64Avatar))
  end.

(** The body of [if (!!data)]: the direct parse, and in its [catch] the
    parse of the text the byte list decodes to. *)
Definition parseUserComment (data base64Avatar : string) : IO Character :=
  try_catch
    (card ← perform (call_json5_parse data) (json5_parse h data);
     mret (new_Character card (Some base64Avatar)))
    (let byteArr := Js.split "," data in
     let uint8Array := map (toUint8 h) byteArr in
     utf8Data ← perform (call_TextDecoder_decode uint8Array)
                        (Normal (TextDecoder_decode h uint8Array));
     card ← perform (call_json5_parse utf8Data) (json5_parse h utf8Data);
     mret (new_Character card (Some base64Avatar))).

(** The statement [if (exifData['UserComment']?.['description']) ...]:
    [Some] is a [return] inside it, [None] is control reaching its end. *)
Definition fromUserComment (exifData : gmap string Exif.Tag) (base64Avatar : string)
  : IO (option Character) :=
  match exifData !! "UserComment" with
  | None => mret None
  | Some UserComment =>
      match Exif.description UserComment with
      | None => mret None
      | Some description =>
          if String.eqb description "" then mret None
          else if negb (String.eqb description "Undefined") then
            card ← perform (call_json5_parse description) (json5_parse h description);
            mret (Some (new_Character card (Some base64Avatar)))
          else
            match Exif.value UserComment with
            | Some [data] =>
                if negb (String.eqb data "") then
                  c ← parseUserComment data base64Avatar;
                  mret (Some c)
                else mret None
            | _ => mret None
            end
      end
  end.

(** [case 'image/webp'] *)
Definition fromWebp (file : File) : IO Character :=
  rawBuffer ← perform await_arrayBuffer (Normal (content file));
  exifData ← perform call_load (load h rawBuffer);
  let base64Avatar := "data:image/webp;base64," +:+ Buffer_toString_base64 h rawBuffer in
  returned ← fromUserComment exifData base64Avatar;
  match returned with
  | Some c => mret c
  | None => throw NoMetadataFound
  end.

(** [static async fromFile(file)]; a rejected promise is a [Throw]. *)
Definition fromFile (file : File) : IO Character :=
  let fileType := type file in
  if String.eqb fileType "application/json" then fromJson file
  else if String.eqb fileType "image/png" then fromPng file
  else if String.eqb fileType "image/webp" then fromWebp file
  else assertUnreachable fileType.

End FromFile.

(** ** A host to run the module on

    Standard encodings (base64, the PNG chunk layout with its CRC, the
    keyword and text of a [tEXt] chunk) and a parser for a fragment of
    strict JSON, on which [JSON.parse] and [json5.parse] agree.  Text is
    kept as its UTF-8 bytes, so decoding bytes to text keeps them as they
    are.  The PNG reader recognises the encoding of the chunks the host
    is made for, and the EXIF reader reports the tags it is made for. *)
Module Sample.

Definition byte_of_ascii (a : ascii) : Z := Z.of_N (N_of_ascii a).
Definition ascii_of_byte (b : Z) : ascii := ascii_of_N (Z.to_N (b mod 256)).
Definition bytes_of_string (s : string) : list Z := map byte_of_ascii (list_ascii_of_string s).
Definition string_of_bytes (bs : list Z) : string := string_of_list_ascii (map ascii_of_byte bs).

(** *** base64 *)

Definition alphabet : string :=
  "ABCDEFGHIJKLMNOPQRSTUVWXYZabcdefghijklmnopqrstuvwxyz0123456789+/".

Definition sextet_char (n : Z) : string :=
  match String.get (Z.to_nat n) alphabet with
  | Some c => String c EmptyString
  | None => "="
  end.

Fixpoint base64_encode (bs : list Z) : string :=
  match bs with
  | [] => ""
  | [a] =>
      sextet_char (a / 4) +:+ sextet_char (a mod 4 * 16) +:+ "=="
  | [a; b] =>
      sextet_char (a / 4) +:+ sextet_char (a mod 4 * 16 + b / 16)
      +:+ sextet_char (b mod 16 * 4) +:+ "="
  | a :: b :: c :: rest =>
      sextet_char (a / 4) +:+ sextet_char (a mod 4 * 16 + b / 16)
      +:+ sextet_char (b mod 16 * 4 + c / 64) +:+ sextet_char (c mod 64)
      +:+ base64_encode rest
  end.

Definition sextet_of (a : ascii) : option Z :=
  let n := byte_of_ascii a in
  if (65 <=? n) && (n <=? 90) then Some (n - 65)
  else if (97 <=? n) && (n <=? 122) then Some (n - 71)
  else if (48 <=? n) && (n <=? 57) then Some (n + 4)
  else if n =? 43 then Some 62
  else if n =? 47 then Some 63
  else None.

Fixpoint bytes_of_sextets (ss : list Z) : list Z :=
  match ss with
  | a :: b :: c :: d :: rest =>
      (a * 4 + b / 16) :: (b mod 16 * 16 + c / 4) :: (c mod 4 * 64 + d)
      :: bytes_of_sextets rest
  | [a; b; c] => [a * 4 + b / 16; b mod 16 * 16 + c / 4]
  | [a; b] => [a * 4 + b / 16]
  | _ => []
  end.

Definition base64_decode (s : string) : list Z :=
  bytes_of_sextets (omap sextet_of (list_ascii_of_string s)).

(** *** The PNG chunk layout *)

Fixpoint crc_shift (n : nat) (c : Z) : Z :=
  match n with
  | O => c
  | S n' =>
      crc_shift n' (if Z.testbit c 0 then Z.lxor (Z.shiftr c 1) 3988292384
                    else Z.shiftr c 1)
  end.

Definition crc32 (bs : list Z) : Z :=
  Z.lxor (fold_left (fun c b => crc_shift 8 (Z.lxor c b)) bs 4294967295) 4294967295.

Definition uint32_be (n : Z) : list Z :=
  [n / 16777216 mod 256; n / 65536 mod 256; n / 256 mod 256; n mod 256].

Definition signature : list Z := [137; 80; 78; 71; 13; 10; 26; 10].

Definition encode_chunk (c : Png.Chunk) : list Z :=
  let body := (bytes_of_string (Png.name c) ++ Png.data c)%list in
  (uint32_be (Z.of_nat (length (Png.data c))) ++ body ++ uint32_be (crc32 body))%list.

Definition png_encode (chunks : list Png.Chunk) : list Z :=
  (signature ++ concat (map encode_chunk chunks))%list.

(** The keyword runs to the first zero byte, the text from there to the
    end; a second zero byte is refused. *)
Fixpoint text_decode (naming : bool) (keyword text : list Z) (data : list Z)
  : Completion Png.Text :=
  match data with
  | [] => Normal {| Png.keyword := string_of_bytes (rev keyword);
                    Png.text := string_of_bytes (rev text) |}
  | code :: data' =>
      if naming then
        if code =? 0 then text_decode false keyword text data'
        else text_decode true (code :: keyword) text data'
      else
        if code =? 0 then Throw (CodecError "Invalid NULL character found")
        else text_decode false keyword (code :: text) data'
  end.

(** The data of the [tEXt] chunk for a keyword and a text. *)
Definition text_encode (keyword text : string) : Png.Chunk :=
  {| Png.name := "tEXt";
     Png.data := (bytes_of_string keyword ++ 0 :: bytes_of_string text)%list |}.

(** *** A fragment of JSON: objects, arrays, strings without escapes,
    natural numbers, [true], [false] and [null] *)

Definition is_space (a : ascii) : bool :=
  let n := byte_of_ascii a in (n =? 32) || (n =? 9) || (n =? 10) || (n =? 13).

Fixpoint skip_space (s : list ascii) : list ascii :=
  match s with
  | a :: s' => if is_space a then skip_space s' else s
  | [] => []
  end.

Fixpoint string_body (acc : list ascii) (s : list ascii) : option (string * list ascii) :=
  match s with
  | [] => None
  | a :: s' =>
      if byte_of_ascii a =? 34 then Some (string_of_list_ascii (rev acc), s')
      else if (byte_of_ascii a =? 92) || (byte_of_ascii a <? 32) then None
      else string_body (a :: acc) s'
  end.

Fixpoint number_body (acc : Z) (s : list ascii) : Z * list ascii :=
  match s with
  | a :: s' =>
      match digit_of a with
      | Some d => number_body (10 * acc + d) s'
      | None => (acc, s)
      end
  | [] => (acc, [])
  end.

Definition literal (word : string) (v : value) (s : list ascii) : option (value * list ascii) :=
  let w := list_ascii_of_string word in
  if bool_decide (take (length w) s = w) then Some (v, drop (length w) s) else None.

Section Items.
Variable parse_value : list ascii -> option (value * list ascii).

(** After the first member: [, "key": value]* [}] *)
Fixpoint members (fuel : nat) (acc : list (string * value)) (s : list ascii)
  : option (value * list ascii) :=
  match fuel with
  | O => None
  | S fuel' =>
      match skip_space s with
      | a :: s1 =>
          if byte_of_ascii a =? 34 then
            match string_body [] s1 with
            | Some (k, s2) =>
                match skip_space s2 with
                | b :: s3 =>
                    if byte_of_ascii b =? 58 then
                      match parse_value s3 with
                      | Some (v, s4) =>
                          match skip_space s4 with
                          | c :: s5 =>
                              if byte_of_ascii c =? 44 then
                                members fuel' (Js.set_property k v acc) s5
                              else if byte_of_ascii c =? 125 then
                                Some (Object (Js.set_property k v acc), s5)
                              else None
                          | [] => None
                          end
                      | None => None
                      end
                    else None
                | [] => None
                end
            | None => None
            end
          else None
      | [] => None
      end
  end.

Fixpoint items (fuel : nat) (acc : list value) (s : list ascii)
  : option (value * list ascii) :=
  match fuel with
  | O => None
  | S fuel' =>
      match parse_value s with
      | Some (v, s1) =>
          match skip_space s1 with
          | c :: s2 =>
              if byte_of_ascii c =? 44 then items fuel' (v :: acc) s2
              else if byte_of_ascii c =? 93 then Some (Array (rev (v :: acc)), s2)
              else None
          | [] => None
          end
      | None => None
      end
  end.
End Items.

Fixpoint parse_value (fuel : nat) (s : list ascii) : option (value * list ascii) :=
  match fuel with
  | O => None
  | S fuel' =>
      match skip_space s with
      | [] => None
      | a :: s1 =>
          let n := byte_of_ascii a in
          if n =? 123 then
            match skip_space s1 with
            | b :: s2 =>
                if byte_of_ascii b =? 125 then Some (Object [], s2)
                else members (parse_value fuel') fuel' [] s1
            | [] => None
            end
          else if n =? 91 then
            match skip_space s1 with
            | b :: s2 =>
                if byte_of_ascii b =? 93 then Some (Array [], s2)
                else items (parse_value fuel') fuel' [] s1
            | [] => None
            end
          else if n =? 34 then
            match string_body [] s1 with
            | Some (str, s2) => Some (Str str, s2)
            | None => None
            end
          else if n =? 48 then Some (Number 0, s1)
          else if (49 <=? n) && (n <=? 57) then
            let '(z, s2) := number_body 0 (a :: s1) in Some (Number z, s2)
          else if n =? 116 then literal "true" (Boolean true) (a :: s1)
          else if n =? 102 then literal "false" (Boolean false) (a :: s1)
          else if n =? 110 then literal "null" Null (a :: s1)
          else None
      end
  end.

Definition parse (text : string) : Completion value :=
  let s := list_ascii_of_string text in
  match parse_value (S (length s)) s with
  | Some (v, rest) =>
      match skip_space rest with
      | [] => Normal v
      | _ => Throw SyntaxError
      end
  | None => Throw SyntaxError
  end.

(** JSON text written with apostrophes in the place of its double
    quotes. *)
Fixpoint quoted (s : string) : string :=
  match s with
  | EmptyString => EmptyString
  | String a s' =>
      String (if byte_of_ascii a =? 39 then ascii_of_byte 34 else a) (quoted s')
  end.

(** The host of a PNG file made of [chunks], or of a WebP file whose
    EXIF tags are [tags]. *)
Definition host (chunks : list Png.Chunk) (tags : gmap string Exif.Tag) : Host :=
  {| JSON_parse := parse;
     json5_parse := parse;
     pngExtract := fun bytes =>
       if bool_decide (bytes = png_encode chunks) then Normal chunks
       else Throw (CodecError "PNG file signature invalid");
     pngEncode := fun cs => Normal (png_encode cs);
     decode := text_decode true [] [];
     load := fun _ => Normal tags;
     File_text := string_of_bytes;
     Buffer_toString_base64 := base64_encode;
     Buffer_from_base64_toString_utf8 := fun s => string_of_bytes (base64_decode s);
     TextDecoder_decode := string_of_bytes;
     Number_toUint8 := fun _ => 0 |}.

End Sample.

(** ** The vocabulary of the properties *)

(** *** The accessors *)

(** The text a record holds under a key: [None] when the key is missing
    or holds something that is not a string. *)
Definition text_of (ps : list (string * value)) (k : string) : option string :=
  match Js.lookup_property k ps with
  | Some (Str s) => Some s
  | _ => None
  end.

(** A key that is missing or holds a string. *)
Definition text_or_absent (ps : list (string * value)) (k : string) : Prop :=
  match Js.lookup_property k ps with
  | None | Some (Str _) => True
  | Some _ => False
  end.

(** The precedence of the specification for the avatar: the field of the
    record unless it is empty or ["none"], then the fallback, then [""]. *)
Definition effective_avatar (field fallback : option string) : string :=
  match field with
  | Some a =>
      if bool_decide (a <> "" /\ a <> "none") then a else default "" fallback
  | None => default "" fallback
  end.

(** The precedence of the specification for a concept with two field
    names: the first when it is not empty, then the second, then [""]. *)
Definition effective_text (first second : option string) : string :=
  match first with
  | Some a => if bool_decide (a <> "") then a else default "" second
  | None => default "" second
  end.

(** The keys of the older schema that have no accessor of their own. *)
Definition unread_legacy_keys : list string := ["char_persona"; "first_mes"; "char_greeting"].

(** *** WebP *)

(** [base64Avatar] of the WebP case: the whole file. *)
Definition webp_avatar (h : Host) (file : File) : string :=
  "data:image/webp;base64," +:+ Buffer_toString_base64 h (content file).

(** What [fromWebp] makes of the statement on [UserComment]. *)
Definition after_UserComment (r : IO (option Character)) : IO Character :=
  (await_arrayBuffer :: call_load :: r.1,
   match r.2 with
   | Normal (Some c) => Normal c
   | Normal None => Throw NoMetadataFound
   | Throw e => Throw e
   end).

(** The tags in which [fromFile] finds nothing to parse. *)
Inductive NoPayload (tags : gmap string Exif.Tag) : Prop :=
  | no_UserComment :
      tags !! "UserComment" = None -> NoPayload tags
  | no_description tag :
      tags !! "UserComment" = Some tag ->
      Exif.description tag = None \/ Exif.description tag = Some "" ->
      NoPayload tags
  | no_single_element tag :
      tags !! "UserComment" = Some tag ->
      Exif.description tag = Some "Undefined" ->
      Exif.value tag = None
      \/ (exists elements, Exif.value tag = Some elements /\ length elements <> 1%nat)
      \/ Exif.value tag = Some [""] ->
      NoPayload tags.

(** The decimal notation of a byte, as [String(b)] prints it. *)
Definition decimal_of_byte (b : Z) : string :=
  let digit d := ascii_of_N (Z.to_N (48 + d)) in
  if b <? 10 then String (digit b) EmptyString
  else if b <? 100 then String (digit (b / 10)) (String (digit (b mod 10)) EmptyString)
  else String (digit (b / 100))
         (String (digit (b / 10 mod 10)) (String (digit (b mod 10)) EmptyString)).

(** A text in which the character does not occur. *)
Fixpoint free_of (c : ascii) (s : string) : bool :=
  match s with
  | EmptyString => true
  | String a s' => negb (Ascii.eqb a c) && free_of c s'
  end.

(** A token that is the decimal notation of a byte. *)
Definition decimal_byte (token : string) : option Z :=
  n ← decimal token; if n <? 256 then Some n else None.

(** The bytes a text lists when it is a comma-separated list of decimal
    notations of bytes. *)
Definition decimal_bytes (data : string) : option (list Z) :=
  mapM decimal_byte (Js.split "," data).

(** *** PNG *)

(** The events of the PNG case up to the search for [chara]. *)
Definition png_prefix (chunks : list Png.Chunk) : list Event :=
  await_arrayBuffer :: call_pngExtract
  :: map (fun chunk => call_decode (Png.data chunk))
         (filter (fun chunk => Png.name chunk = "tEXt") chunks).

(** [base64Avatar] of the PNG case, from the bytes of the encoder. *)
Definition png_avatar (h : Host) (encoded : list Z) : string :=
  "data:image/png;base64," +:+ Buffer_toString_base64 h encoded.

(** The chunks the encoder is given: every chunk that is not [tEXt]. *)
Definition residual (chunks : list Png.Chunk) : list Png.Chunk :=
  filter (fun chunk => Png.name chunk <> "tEXt") chunks.

(** A [tEXt] chunk that decodes to the keyword [chara]. *)
Definition is_chara (h : Host) (chunk : Png.Chunk) : bool :=
  bool_decide (Png.name chunk = "tEXt")
  && match decode h (Png.data chunk) with
     | Normal d => String.eqb (Png.keyword d) "chara"
     | Throw _ => false
     end.

(** The chunks with the [chara] chunk removed and every other chunk
    kept, as C8 describes the input of the encoder. *)
Definition without_chara (h : Host) (chunks : list Png.Chunk) : list Png.Chunk :=
  List.filter (fun chunk => negb (is_chara h chunk)) chunks.

(** *** Events and exceptions *)

(** The events at which [fromFile] waits for the content of the file. *)
Definition is_await (ev : Event) : bool :=
  match ev with
  | await_text | await_arrayBuffer => true
  | _ => false
  end.

(** The read of the content each supported case starts with. *)
Definition first_await (type : string) : Event :=
  if String.eqb type "application/json" then await_text else await_arrayBuffer.

(** The calls of the JSON case, of the PNG case and of the WebP case. *)
Definition json_call (ev : Event) : bool :=
  match ev with
  | call_JSON_parse _ => true
  | _ => false
  end.

Definition png_call (ev : Event) : bool :=
  match ev with
  | call_pngExtract | call_decode _ | call_JSON_parse _ | call_pngEncode => true
  | _ => false
  end.

Definition webp_call (ev : Event) : bool :=
  match ev with
  | call_load | call_json5_parse _ | call_TextDecoder_decode _ => true
  | _ => false
  end.

Definition calls_of (type : string) (ev : Event) : bool :=
  if String.eqb type "application/json" then json_call ev
  else if String.eqb type "image/png" then png_call ev
  else webp_call ev.

(** Every exception the computation ends with satisfies [Q]. *)
Definition Raises {A : Type} (Q : Error -> Prop) (m : IO A) : Prop :=
  forall e, m.2 = Throw e -> Q e.

(** A record whose [avatar] is missing, falsy or the sentinel ["none"]. *)
Definition no_own_avatar (ps : list (string * value)) : Prop :=
  match Js.lookup_property "avatar" ps with
  | None => True
  | Some v => Js.truthy v = false \/ v = Str "none"
  end.

(** *** Sample files *)

(** The first bytes of a WebP file, for the examples. *)
Definition riff : list Z := [82; 73; 70; 70; 26; 0; 0; 0; 87; 69; 66; 80; 86; 80; 56; 32].

(** The chunks of a one-pixel image. *)
Definition IHDR : Png.Chunk :=
  {| Png.name := "IHDR"; Png.data := [0; 0; 0; 1; 0; 0; 0; 1; 8; 0; 0; 0; 0] |}.

Definition IDAT : Png.Chunk :=
  {| Png.name := "IDAT"; Png.data := [120; 156; 99; 96; 0; 0; 0; 2; 0; 1] |}.

Definition IEND : Png.Chunk := {| Png.name := "IEND"; Png.data := [] |}.

(** A text chunk that is not a character card. *)
Definition comment : Png.Chunk := Sample.text_encode "Comment" "drawn by hand".

(** [chara] holding the base64 of [{"spec_version":"2.0","data":{"name":"Ann"}}]. *)
Definition chara_v2 : Png.Chunk :=
  Sample.text_encode "chara" "eyJzcGVjX3ZlcnNpb24iOiIyLjAiLCJkYXRhIjp7Im5hbWUiOiJBbm4ifX0=".

(** [chara] holding the base64 of [{"char_name":"Ann"}]. *)
Definition chara_v1 : Png.Chunk :=
  Sample.text_encode "chara" "eyJjaGFyX25hbWUiOiJBbm4ifQ==".

(** The PNG file made of the given chunks. *)
Definition png_file (chunks : list Png.Chunk) : File :=
  {| type := "image/png"; content := Sample.png_encode chunks |}.

(** A [tEXt] chunk with a second zero byte, which [decode] refuses. *)
Definition broken_text : Png.Chunk :=
  {| Png.name := "tEXt"; Png.data := [67; 0; 97; 0; 98] |}.

(** [chara] holding the base64 of [null]. *)
Definition chara_null : Png.Chunk := Sample.text_encode "chara" "bnVsbA==".

(** [chara] holding the base64 of an opening brace. *)
Definition chara_unparsable : Png.Chunk := Sample.text_encode "chara" "ew==".

(** [chara] holding the base64 of [{"spec_version":"2.0","name":"Ann"}]. *)
Definition chara_v2_bare : Png.Chunk :=
  Sample.text_encode "chara" "eyJzcGVjX3ZlcnNpb24iOiIyLjAiLCJuYW1lIjoiQW5uIn0=".

(** ** Properties *)

(** The sample encodings on known values: the CRC of an empty [IEND]
    chunk is [AE 42 60 82]. *)
Example sample_crc32_IEND :
  Sample.uint32_be (Sample.crc32 (Sample.bytes_of_string "IEND")) = [174; 66; 96; 130].
Proof. reflexivity. Qed.

Example sample_base64 :
  Sample.base64_encode (Sample.bytes_of_string "{}") = "e30="
  /\ Sample.string_of_bytes (Sample.base64_decode "e30=") = "{}".
Proof. split; reflexivity. Qed.

Example sample_parse :
  Sample.parse (Sample.quoted "{ 'name': 'Ann', 'tags': [1, true, null] }")
  = Normal (Object [("name", Str "Ann"); ("tags", Array [Number 1; Boolean true; Null])])
  /\ Sample.parse "" = Throw SyntaxError
  /\ Sample.parse "123,125" = Throw SyntaxError.
Proof. repeat split; reflexivity. Qed.

Example INPUT_ACCEPT_value : INPUT_ACCEPT = ".json, .png, .webp".
Proof. reflexivity. Qed.

(** *** The accessors *)

Lemma get_object ps k :
  Js.get (Object ps) k = Normal (default Undefined (Js.lookup_property k ps)).
Proof. reflexivity. Qed.

Lemma eqb_empty_decide (s : string) : negb (String.eqb s "") = bool_decide (s <> "").
Proof.
  destruct (String.eqb_spec s ""); simpl.
  - rewrite bool_decide_eq_false_2; [reflexivity | tauto].
  - rewrite bool_decide_eq_true_2; [reflexivity | assumption].
Qed.

(** [a || b || ''] over two keys that hold text or are missing. *)
Lemma or_chain_text ps k1 k2 :
  text_or_absent ps k1 -> text_or_absent ps k2 ->
  (v1 ← Js.get (Object ps) k1;
   either ← (if Js.truthy v1 then mret v1 else Js.get (Object ps) k2);
   mret (Js.or either (Str "")))
  = Normal (Str (effective_text (text_of ps k1) (text_of ps k2))).
Proof.
  unfold text_or_absent, text_of, effective_text. rewrite !get_object.
  destruct (Js.lookup_property k1 ps) as [[]|];
    destruct (Js.lookup_property k2 ps) as [[]|]; try tauto; intros _ _; simpl;
    unfold Js.or; simpl; rewrite ?eqb_empty_decide;
    repeat (case_bool_decide; simpl; rewrite ?eqb_empty_decide);
    subst; try reflexivity; try tauto.
Qed.

Lemma lookup_set_property_ne k k' v ps :
  k <> k' -> Js.lookup_property k' (Js.set_property k v ps) = Js.lookup_property k' ps.
Proof.
  intros Hne. induction ps as [|[k0 v0] ps IH]; simpl.
  - destruct (String.eqb_spec k k'); [contradiction | reflexivity].
  - destruct (String.eqb_spec k0 k) as [->|Hk]; simpl.
    + destruct (String.eqb_spec k k'); [contradiction | reflexivity].
    + destruct (String.eqb_spec k0 k'); [reflexivity | exact IH].
Qed.

(** C5. For every record and every fallback avatar, given or left out,
    no accessor throws.  When [avatar], [system_prompt], [description],
    [name] and [char_name] hold text or are missing, [avatar] is the field
    of the record when it is neither empty nor ["none"], else the fallback,
    else [""]; [description] is [system_prompt] when it is not empty, else
    [description], else [""]; [name] is [name] when it is not empty, else
    [char_name], else [""]. *)
Theorem accessors_precedence (ps : list (string * value)) (fallback : option string) :
  let this := new_Character (Object ps) fallback in
  (exists a d n,
     avatar this = Normal a /\ description this = Normal d /\ name this = Normal n)
  /\ (Forall (text_or_absent ps)
             ["avatar"; "system_prompt"; "description"; "name"; "char_name"] ->
      avatar this = Normal (Str (effective_avatar (text_of ps "avatar") fallback))
      /\ description this
         = Normal (Str (effective_text (text_of ps "system_prompt")
                                       (text_of ps "description")))
      /\ name this
         = Normal (Str (effective_text (text_of ps "name") (text_of ps "char_name")))).
Proof.
  intros this. split.
  - unfold avatar, description, name. subst this. simpl metadata. rewrite !get_object.
    simpl. destruct (Js.truthy (default Undefined (Js.lookup_property "avatar" ps)));
      [destruct (negb _)|];
      destruct (Js.truthy (default Undefined (Js.lookup_property "system_prompt" ps)));
      destruct (Js.truthy (default Undefined (Js.lookup_property "name" ps)));
      simpl; eexists _, _, _; repeat split; reflexivity.
  - intros Hall.
    repeat match goal with H : Forall _ (_ :: _) |- _ => apply Forall_cons_1 in H as [? H] end.
    split; [|split].
    + unfold avatar, effective_avatar, text_of. subst this. simpl metadata.
      rewrite !get_object.
      match goal with H : text_or_absent ps "avatar" |- _ => unfold text_or_absent in H end.
      destruct (Js.lookup_property "avatar" ps) as [[]|]; try tauto; simpl; try reflexivity.
      rewrite eqb_empty_decide.
      destruct (String.eqb_spec s "none"); repeat (case_bool_decide; simpl);
        try reflexivity; try tauto.
    + unfold description. subst this. simpl metadata. now apply or_chain_text.
    + unfold name. subst this. simpl metadata. now apply or_chain_text.
Qed.

(** C5 on a version-2 record with an avatar of ["none"], an empty
    [system_prompt] and no [name]. *)
Lemma accessors_precedence_witness :
  let ps := [("avatar", Str "none"); ("system_prompt", Str ""); ("description", Str "A tutor");
             ("char_name", Str "Ann"); ("tags", Array [Str "teacher"])] in
  let this := new_Character (Object ps) (Some "data:image/png;base64,AAAA") in
  avatar this = Normal (Str "data:image/png;base64,AAAA")
  /\ description this = Normal (Str "A tutor")
  /\ name this = Normal (Str "Ann").
Proof.
  intros ps this.
  exact (proj2 (accessors_precedence ps (Some "data:image/png;base64,AAAA"))
           ltac:(repeat constructor)).
Defined.

Lemma legacy_key_not_read (k k' : string) :
  k ∈ unread_legacy_keys ->
  k' ∈ ["avatar"; "system_prompt"; "description"; "name"; "char_name"] ->
  k <> k'.
Proof.
  unfold unread_legacy_keys. rewrite !list_elem_of_In. simpl.
  intros Hk Hk' ->.
  repeat match goal with H : _ \/ _ |- _ => destruct H end;
    subst; try discriminate; contradiction.
Qed.

(** C4, as stated, fails: on a record that only has [char_persona] the
    [description] accessor is [""], not the persona. *)
Lemma description_ignores_char_persona :
  let this := new_Character (Object [("char_persona", Str "A retired pilot")]) None in
  description this = Normal (Str "")
  /\ description this <> Normal (Str "A retired pilot").
Proof. split; [reflexivity | discriminate]. Qed.

(** C4, amended. [name] prefers [name] and falls back to [char_name];
    [description] prefers [system_prompt] and falls back to [description];
    each is [""] when both of its fields are missing.  No accessor reads
    [char_persona], [first_mes] or [char_greeting]: writing any of them
    changes the result of none of the three accessors. *)
Theorem accessors_version_drift (ps : list (string * value)) (fallback : option string) :
  Forall (text_or_absent ps) ["system_prompt"; "description"; "name"; "char_name"] ->
  let this := new_Character (Object ps) fallback in
  (forall newer, text_of ps "name" = Some newer -> newer <> "" -> name this = Normal (Str newer))
  /\ (forall older, text_of ps "name" = None \/ text_of ps "name" = Some "" ->
       text_of ps "char_name" = Some older -> name this = Normal (Str older))
  /\ (forall newer, text_of ps "system_prompt" = Some newer -> newer <> "" ->
       description this = Normal (Str newer))
  /\ (forall older, text_of ps "system_prompt" = None \/ text_of ps "system_prompt" = Some "" ->
       text_of ps "description" = Some older -> description this = Normal (Str older))
  /\ (text_of ps "name" = None -> text_of ps "char_name" = None -> name this = Normal (Str ""))
  /\ (text_of ps "system_prompt" = None -> text_of ps "description" = None ->
       description this = Normal (Str ""))
  /\ (forall k v, k ∈ unread_legacy_keys ->
       let that := new_Character (Object (Js.set_property k v ps)) fallback in
       avatar that = avatar this /\ description that = description this
       /\ name that = name this).
Proof.
  intros Hall this.
  repeat match goal with H : Forall _ (_ :: _) |- _ => apply Forall_cons_1 in H as [? H] end.
  assert (Hn : name this
               = Normal (Str (effective_text (text_of ps "name") (text_of ps "char_name"))))
    by (unfold name; subst this; simpl metadata; now apply or_chain_text).
  assert (Hd : description this
               = Normal (Str (effective_text (text_of ps "system_prompt")
                                             (text_of ps "description"))))
    by (unfold description; subst this; simpl metadata; now apply or_chain_text).
  assert (Hfresh : forall k v k', k ∈ unread_legacy_keys ->
            k' ∈ ["avatar"; "system_prompt"; "description"; "name"; "char_name"] ->
            Js.get (Object (Js.set_property k v ps)) k' = Js.get (Object ps) k').
  { intros k v k' Hk Hk'. rewrite !get_object, lookup_set_property_ne; [reflexivity|].
    now apply legacy_key_not_read. }
  split. { intros newer E Hne. rewrite Hn, E. simpl. now rewrite bool_decide_eq_true_2. }
  split. { intros older [E|E] E'; rewrite Hn, E, E'; reflexivity. }
  split. { intros newer E Hne. rewrite Hd, E. simpl. now rewrite bool_decide_eq_true_2. }
  split. { intros older [E|E] E'; rewrite Hd, E, E'; reflexivity. }
  split. { intros E E'. rewrite Hn, E, E'. reflexivity. }
  split. { intros E E'. rewrite Hd, E, E'. reflexivity. }
  intros k v Hk that. subst this that.
  unfold avatar, description, name. simpl metadata.
  rewrite !(Hfresh k v) by (assumption || (rewrite !elem_of_cons; tauto)).
  repeat split; reflexivity.
Qed.

(** C4, amended, on a record of the older schema: the three legacy keys
    are present and none of them shows. *)
Lemma accessors_version_drift_witness :
  let ps := [("char_name", Str "Ann"); ("char_persona", Str "A retired pilot");
             ("char_greeting", Str "Hello")] in
  let this := new_Character (Object ps) None in
  name this = Normal (Str "Ann") /\ description this = Normal (Str "").
Proof.
  intros ps this.
  destruct (accessors_version_drift ps None ltac:(repeat constructor))
    as (_ & Hname & _ & _ & _ & Hdescription & _).
  split.
  - apply Hname; [left|]; reflexivity.
  - apply Hdescription; reflexivity.
Defined.

(** *** The dispatch on the media type *)

Lemma fromFile_json h file : type file = "application/json" -> fromFile h file = fromJson h file.
Proof. intros E. unfold fromFile. now rewrite E. Qed.

Lemma fromFile_png h file : type file = "image/png" -> fromFile h file = fromPng h file.
Proof. intros E. unfold fromFile. now rewrite E. Qed.

Lemma fromFile_webp h file : type file = "image/webp" -> fromFile h file = fromWebp h file.
Proof. intros E. unfold fromFile. now rewrite E. Qed.

(** C9. A file whose declared type is none of the three supported ones is
    refused with an exception, and nothing happens before it: the content
    is not awaited and no package is called. *)
Theorem fromFile_unsupported_type (h : Host) (file : File) :
  type file ∉ VALID_FILE_TYPES ->
  fromFile h file = ([], Throw (Error_ "Statement should be unreachable")).
Proof.
  unfold VALID_FILE_TYPES. rewrite !not_elem_of_cons. intros (H1 & H2 & H3 & _).
  unfold fromFile.
  destruct (String.eqb_spec (type file) "application/json"); [contradiction|].
  destruct (String.eqb_spec (type file) "image/png"); [contradiction|].
  destruct (String.eqb_spec (type file) "image/webp"); [contradiction|].
  reflexivity.
Qed.

(** C9 on a GIF. *)
Lemma fromFile_unsupported_type_witness :
  fromFile (Sample.host [] ∅) {| type := "image/gif"; content := [71; 73; 70; 56; 57; 97] |}
  = ([], Throw (Error_ "Statement should be unreachable")).
Proof.
  apply fromFile_unsupported_type. unfold VALID_FILE_TYPES. simpl.
  rewrite !not_elem_of_cons. repeat split; try discriminate. apply not_elem_of_nil.
Defined.

(** *** WebP *)

Lemma fromWebp_loaded h file tags :
  load h (content file) = Normal tags ->
  fromWebp h file = after_UserComment (fromUserComment h tags (webp_avatar h file)).
Proof.
  intros E. unfold fromWebp, after_UserComment, webp_avatar. simpl. rewrite E. simpl.
  destruct (fromUserComment _ _ _) as [t [[c|]|e]]; simpl; rewrite ?app_nil_r; reflexivity.
Qed.

(** Enters the WebP case of a file whose tags were read. *)
Ltac enter_webp Htype Hload :=
  rewrite (fromFile_webp _ _ Htype), (fromWebp_loaded _ _ _ Hload).

(** The statement on [UserComment] when the description is the sentinel
    and the value has one element. *)
Lemma fromUserComment_sentinel h tags tag data base64Avatar :
  tags !! "UserComment" = Some tag ->
  Exif.description tag = Some "Undefined" ->
  Exif.value tag = Some [data] ->
  fromUserComment h tags base64Avatar
  = if String.eqb data "" then mret None
    else c ← parseUserComment h data base64Avatar; mret (Some c).
Proof.
  intros Htag Hd Hv. unfold fromUserComment. rewrite Htag, Hd, Hv. simpl.
  destruct (String.eqb data ""); reflexivity.
Qed.

(** C10. With the sentinel description and a value array whose only
    element is the empty string, extraction fails with [NoMetadataFound]
    and no parser is called. *)
Theorem fromFile_webp_empty_element (h : Host) (file : File)
    (tags : gmap string Exif.Tag) (tag : Exif.Tag) :
  type file = "image/webp" ->
  load h (content file) = Normal tags ->
  tags !! "UserComment" = Some tag ->
  Exif.description tag = Some "Undefined" ->
  Exif.value tag = Some [""] ->
  fromFile h file = ([await_arrayBuffer; call_load], Throw NoMetadataFound).
Proof.
  intros Htype Hload Htag Hd Hv.
  enter_webp Htype Hload.
  rewrite (fromUserComment_sentinel _ _ _ _ _ Htag Hd Hv). reflexivity.
Qed.

(** C10 on the sample host. *)
Lemma fromFile_webp_empty_element_witness :
  let tag := {| Exif.description := Some "Undefined"; Exif.value := Some [""] |} in
  fromFile (Sample.host [] {[ "UserComment" := tag ]})
           {| type := "image/webp"; content := riff |}
  = ([await_arrayBuffer; call_load], Throw NoMetadataFound).
Proof.
  intros tag.
  apply (fromFile_webp_empty_element _ _ {[ "UserComment" := tag ]} tag); reflexivity.
Defined.

(** C1, as stated, fails when the description is missing: the value
    array is only read under a description that is present, so a single
    element that parses is not looked at. *)
Lemma fromFile_webp_description_absent :
  let data := Sample.quoted "{'name': 'Ann'}" in
  let tag := {| Exif.description := None; Exif.value := Some [data] |} in
  let h := Sample.host [] {[ "UserComment" := tag ]} in
  json5_parse h data = Normal (Object [("name", Str "Ann")])
  /\ fromFile h {| type := "image/webp"; content := riff |}
     = ([await_arrayBuffer; call_load], Throw NoMetadataFound).
Proof. split; reflexivity. Qed.

(** C1, amended. Let the value of [UserComment] be an array of one
    element that the permissive parser accepts (the parser refuses the
    empty text, as JSON5 does).  When the description is the sentinel
    ["Undefined"], extraction returns the parsed value as the metadata,
    with the file as the fallback avatar; the parser is called once, on
    that element, and never on the description.  When the description is
    missing or empty, the value is not read and extraction fails with
    [NoMetadataFound]. *)
Theorem fromFile_webp_value_array (h : Host) (file : File)
    (tags : gmap string Exif.Tag) (tag : Exif.Tag) (data : string) (card : value) :
  type file = "image/webp" ->
  load h (content file) = Normal tags ->
  tags !! "UserComment" = Some tag ->
  Exif.value tag = Some [data] ->
  (forall v, json5_parse h "" <> Normal v) ->
  json5_parse h data = Normal card ->
  (Exif.description tag = Some "Undefined" ->
   fromFile h file
   = ([await_arrayBuffer; call_load; call_json5_parse data],
      Normal {| metadata := card; fallbackAvatar := webp_avatar h file |}))
  /\ (Exif.description tag = None \/ Exif.description tag = Some "" ->
      fromFile h file = ([await_arrayBuffer; call_load], Throw NoMetadataFound)).
Proof.
  intros Htype Hload Htag Hv Hempty Hparse.
  enter_webp Htype Hload. split; intros Hd.
  - rewrite (fromUserComment_sentinel _ _ _ _ _ Htag Hd Hv).
    destruct (String.eqb_spec data "") as [->|_].
    + now apply Hempty in Hparse.
    + unfold parseUserComment, after_UserComment. simpl. rewrite Hparse. reflexivity.
  - unfold fromUserComment. rewrite Htag. now destruct Hd as [-> | ->].
Qed.

(** C1, amended, on the sample host: the same element under the sentinel
    and under no description. *)
Lemma fromFile_webp_value_array_witness :
  let data := Sample.quoted "{'name': 'Ann'}" in
  let sentinel := {| Exif.description := Some "Undefined"; Exif.value := Some [data] |} in
  let missing := {| Exif.description := None; Exif.value := Some [data] |} in
  let file := {| type := "image/webp"; content := riff |} in
  fromFile (Sample.host [] {[ "UserComment" := sentinel ]}) file
  = ([await_arrayBuffer; call_load; call_json5_parse data],
     Normal {| metadata := Object [("name", Str "Ann")];
               fallbackAvatar := webp_avatar (Sample.host [] ∅) file |})
  /\ fromFile (Sample.host [] {[ "UserComment" := missing ]}) file
     = ([await_arrayBuffer; call_load], Throw NoMetadataFound).
Proof.
  intros data sentinel missing file.
  assert (Hempty : forall v, Sample.parse "" <> Normal v) by (intros v; discriminate).
  split.
  - apply (fromFile_webp_value_array (Sample.host [] {[ "UserComment" := sentinel ]}) file
             {[ "UserComment" := sentinel ]} sentinel data (Object [("name", Str "Ann")]));
      solve [reflexivity | exact Hempty].
  - apply (fromFile_webp_value_array (Sample.host [] {[ "UserComment" := missing ]}) file
             {[ "UserComment" := missing ]} missing data (Object [("name", Str "Ann")]));
      solve [reflexivity | exact Hempty | left; reflexivity].
Defined.

(** C2, as stated, fails: when the parse attempts fail, the exception is
    the parser's.  First a description that does not parse, then the
    sentinel with an element that parses neither as it is nor as the
    bytes 1 and 2. *)
Lemma fromFile_webp_parse_error_propagates :
  let file := {| type := "image/webp"; content := riff |} in
  let broken := {| Exif.description := Some "{"; Exif.value := None |} in
  let bytes := {| Exif.description := Some "Undefined"; Exif.value := Some ["1,2"] |} in
  (fromFile (Sample.host [] {[ "UserComment" := broken ]}) file).2 = Throw SyntaxError
  /\ (fromFile (Sample.host [] {[ "UserComment" := bytes ]}) file).2 = Throw SyntaxError
  /\ Throw SyntaxError <> @Throw Character NoMetadataFound.
Proof. repeat split; try reflexivity. discriminate. Qed.

(** C2, amended. When the tags hold nothing to parse (no [UserComment],
    a description that is missing or empty, or the sentinel description
    with a value that is missing, not of length 1, or the empty string),
    extraction fails with [NoMetadataFound] and calls no parser.  In every
    other case a failure of extraction is the exception of its last
    parse. *)
Theorem fromFile_webp_failures (h : Host) (file : File) (tags : gmap string Exif.Tag) :
  type file = "image/webp" ->
  load h (content file) = Normal tags ->
  (NoPayload tags ->
   fromFile h file = ([await_arrayBuffer; call_load], Throw NoMetadataFound))
  /\ (~ NoPayload tags ->
      forall t e, fromFile h file = (t, Throw e) ->
      exists t' text, t = (t' ++ [call_json5_parse text])%list
                      /\ json5_parse h text = Throw e).
Proof.
  intros Htype Hload.
  enter_webp Htype Hload.
  unfold fromUserComment. split.
  - intros [Hnone | tag Htag [Hd|Hd] | tag Htag Hd Hv].
    + now rewrite Hnone.
    + now rewrite Htag, Hd.
    + now rewrite Htag, Hd.
    + rewrite Htag, Hd. simpl.
      destruct Hv as [Hv | [(elements & Hv & Hlen) | Hv]]; rewrite Hv; try reflexivity.
      destruct elements as [|? [|? ?]]; try reflexivity. now contradict Hlen.
  - intros Hsome t e.
    destruct (tags !! "UserComment") as [tag|] eqn:Htag;
      [|contradict Hsome; now apply no_UserComment].
    destruct (Exif.description tag) as [d|] eqn:Hd;
      [|contradict Hsome; apply (no_description _ tag); auto].
    destruct (String.eqb_spec d "") as [->|_];
      [contradict Hsome; apply (no_description _ tag); auto|].
    destruct (String.eqb_spec d "Undefined") as [->|_]; simpl.
    + destruct (Exif.value tag) as [[|data [|? ?]]|] eqn:Hv;
        try (contradict Hsome; apply (no_single_element _ tag); [assumption..|];
             first [ now left
                   | right; left; eexists; split; [eassumption | discriminate] ]).
      destruct (String.eqb_spec data "") as [->|_]; simpl;
        [contradict Hsome; apply (no_single_element _ tag); auto|].
      unfold parseUserComment, after_UserComment. simpl.
      destruct (json5_parse h data) as [card|e1]; simpl; [discriminate|].
      destruct (json5_parse h (TextDecoder_decode h (map (toUint8 h) (Js.split "," data))))
        as [card|e2] eqn:Hsecond; simpl; [discriminate|].
      intros [= <- <-].
      exists [await_arrayBuffer; call_load; call_json5_parse data;
              call_TextDecoder_decode (map (toUint8 h) (Js.split "," data))].
      eexists. split; [reflexivity | exact Hsecond].
    + unfold after_UserComment. simpl.
      destruct (json5_parse h d) as [card|e1] eqn:Hfirst; simpl; [discriminate|].
      intros [= <- <-]. exists [await_arrayBuffer; call_load], d. split; [reflexivity | exact Hfirst].
Qed.

(** C2, amended, on the sample host: a value array of two elements, and
    a description that does not parse. *)
Lemma fromFile_webp_failures_witness :
  let file := {| type := "image/webp"; content := riff |} in
  let two := {| Exif.description := Some "Undefined";
                Exif.value := Some ["{}"; "{}"] |} in
  let broken := {| Exif.description := Some "{"; Exif.value := None |} in
  fromFile (Sample.host [] {[ "UserComment" := two ]}) file
  = ([await_arrayBuffer; call_load], Throw NoMetadataFound)
  /\ exists t' text,
       (fromFile (Sample.host [] {[ "UserComment" := broken ]}) file).1
       = (t' ++ [call_json5_parse text])%list
       /\ Sample.parse text = Throw SyntaxError.
Proof.
  intros file two broken. split.
  - apply (proj1 (fromFile_webp_failures (Sample.host [] {[ "UserComment" := two ]}) file
                    {[ "UserComment" := two ]} eq_refl eq_refl)).
    apply (no_single_element _ two); [reflexivity | reflexivity |].
    right; left. exists ["{}"; "{}"]. split; [reflexivity | discriminate].
  - destruct (proj2 (fromFile_webp_failures (Sample.host [] {[ "UserComment" := broken ]}) file
                       {[ "UserComment" := broken ]} eq_refl eq_refl))
      with (t := [await_arrayBuffer; call_load; call_json5_parse "{"]) (e := SyntaxError)
      as (t' & text & Ht & He).
    + intros [H | tag H [Hd|Hd] | tag H Hd Hv];
        rewrite lookup_singleton_eq in H; try discriminate;
        injection H as <-; discriminate.
    + reflexivity.
    + exists t', text. split; [exact Ht | exact He].
Defined.

Lemma digits_value_nonneg s : forall acc n, 0 <= acc -> digits_value acc s = Some n -> 0 <= n.
Proof.
  induction s as [|a s IH]; simpl; intros acc n Hacc.
  - intros [= <-]. exact Hacc.
  - unfold digit_of. destruct (_ && _) eqn:Hdigit; [|discriminate].
    apply andb_prop in Hdigit as [Hlo _]. apply IH. lia.
Qed.

Lemma toUint8_decimal_byte h token b : decimal_byte token = Some b -> toUint8 h token = b.
Proof.
  unfold decimal_byte, toUint8. destruct (decimal token) as [n|] eqn:Hn; simpl; [|discriminate].
  destruct (Z.ltb_spec n 256) as [Hlt|]; [|discriminate]. intros [= <-].
  assert (0 <= n).
  { destruct token; [discriminate|]. now apply (digits_value_nonneg _ 0 n) in Hn. }
  destruct (Z.ltb_spec n (2 ^ 53)); [|lia]. now apply Z.mod_small.
Qed.

Lemma uint8Array_decimal_bytes h data bs :
  decimal_bytes data = Some bs -> map (toUint8 h) (Js.split "," data) = bs.
Proof.
  unfold decimal_bytes. rewrite mapM_Some.
  induction 1 as [|token b tokens bs' Hb _ IH]; simpl; [reflexivity|].
  now rewrite (toUint8_decimal_byte _ _ _ Hb), IH.
Qed.

Lemma decimal_bytes_nonempty data bs : decimal_bytes data = Some bs -> data <> "".
Proof. intros H ->. discriminate H. Qed.

Lemma split_free_of c s : free_of c s = true -> Js.split c s = [s].
Proof.
  induction s as [|a s IH]; simpl; [reflexivity|].
  intros [Ha Hs]%andb_prop. apply negb_true_iff in Ha. rewrite Ha, (IH Hs). reflexivity.
Qed.

Lemma split_app_separator c s rest :
  free_of c s = true -> Js.split c (s +:+ String c rest) = s :: Js.split c rest.
Proof.
  induction s as [|a s IH]; simpl.
  - intros _. now rewrite Ascii.eqb_refl.
  - intros [Ha Hs]%andb_prop. apply negb_true_iff in Ha. rewrite Ha, (IH Hs). reflexivity.
Qed.

Lemma decimal_of_byte_spec b :
  0 <= b < 256 ->
  decimal_byte (decimal_of_byte b) = Some b /\ free_of "," (decimal_of_byte b) = true.
Proof.
  intros Hb.
  assert (Hall : forallb (fun b => bool_decide (decimal_byte (decimal_of_byte b) = Some b)
                                   && free_of "," (decimal_of_byte b)) (seqZ 0 256) = true)
    by (vm_compute; reflexivity).
  rewrite forallb_forall in Hall.
  assert (Hin : In b (seqZ 0 256)) by (apply list_elem_of_In, elem_of_seqZ; lia).
  apply Hall, andb_prop in Hin as [H1 H2].
  split; [now apply bool_decide_eq_true in H1 | exact H2].
Qed.

(** The text [bytes.join(',')] of a non-empty list of bytes is a
    comma-separated list of decimal bytes, and lists these bytes. *)
Lemma decimal_bytes_join bs :
  bs <> [] -> Forall (fun b => 0 <= b < 256) bs ->
  decimal_bytes (Js.join "," (map decimal_of_byte bs)) = Some bs.
Proof.
  unfold decimal_bytes. intros Hne Hall. rewrite mapM_Some.
  induction Hall as [|b bs Hb Hall IH]; [contradiction|].
  destruct (decimal_of_byte_spec b Hb) as [Hvalue Hfree].
  destruct bs as [|b' bs].
  - simpl. rewrite (split_free_of _ _ Hfree). repeat constructor. exact Hvalue.
  - change (Js.join "," (map decimal_of_byte (b :: b' :: bs)))
      with (decimal_of_byte b +:+ String "," (Js.join "," (map decimal_of_byte (b' :: bs)))).
    rewrite (split_app_separator _ _ _ Hfree). constructor; [exact Hvalue|].
    now apply IH.
Qed.

(** C3. On the value-array path (sentinel description, one element): when
    the direct parse of the element throws, the element is a
    comma-separated list of decimal bytes, and the parser accepts the text
    these bytes decode to, extraction returns what was parsed from the
    decoded text; and whenever the bytes are decoded, the direct parse of
    the element came first and threw. *)
Theorem fromFile_webp_byte_array (h : Host) (file : File)
    (tags : gmap string Exif.Tag) (tag : Exif.Tag) (data : string) :
  type file = "image/webp" ->
  load h (content file) = Normal tags ->
  tags !! "UserComment" = Some tag ->
  Exif.description tag = Some "Undefined" ->
  Exif.value tag = Some [data] ->
  (forall e bs card,
     json5_parse h data = Throw e ->
     decimal_bytes data = Some bs ->
     json5_parse h (TextDecoder_decode h bs) = Normal card ->
     fromFile h file
     = ([await_arrayBuffer; call_load; call_json5_parse data;
         call_TextDecoder_decode bs; call_json5_parse (TextDecoder_decode h bs)],
        Normal {| metadata := card; fallbackAvatar := webp_avatar h file |}))
  /\ (forall bs, call_TextDecoder_decode bs ∈ (fromFile h file).1 ->
      (exists e, json5_parse h data = Throw e)
      /\ exists t, (fromFile h file).1
                   = ([await_arrayBuffer; call_load; call_json5_parse data;
                       call_TextDecoder_decode bs] ++ t)%list).
Proof.
  intros Htype Hload Htag Hd Hv.
  enter_webp Htype Hload.
  rewrite (fromUserComment_sentinel _ _ _ _ _ Htag Hd Hv). split.
  - intros e bs card Hdirect Hbytes Hdecoded.
    destruct (String.eqb_spec data "") as [->|_]; [discriminate Hbytes|].
    unfold parseUserComment, after_UserComment. simpl.
    rewrite Hdirect, (uint8Array_decimal_bytes _ _ _ Hbytes). simpl.
    rewrite Hdecoded. reflexivity.
  - intros bs.
    destruct (String.eqb_spec data "") as [->|_]; simpl.
    { rewrite !elem_of_cons, elem_of_nil. intuition discriminate. }
    unfold parseUserComment. simpl.
    destruct (json5_parse h data) as [card|e]; simpl.
    { rewrite !elem_of_cons, elem_of_nil. intuition discriminate. }
    destruct (json5_parse h _) as [card|e']; simpl;
      rewrite !elem_of_cons, elem_of_nil;
      (intros [|[|[|[[= <-]|[|[]]]]]]; try discriminate);
      (split; [now exists e | eexists; reflexivity]).
Qed.

(** C3 on the sample host: the element lists the bytes of
    [{"name":"Ann"}]. *)
Lemma fromFile_webp_byte_array_witness :
  let data := "123,34,110,97,109,101,34,58,34,65,110,110,34,125" in
  let bs := [123; 34; 110; 97; 109; 101; 34; 58; 34; 65; 110; 110; 34; 125] in
  let tag := {| Exif.description := Some "Undefined"; Exif.value := Some [data] |} in
  let h := Sample.host [] {[ "UserComment" := tag ]} in
  let file := {| type := "image/webp"; content := riff |} in
  fromFile h file
  = ([await_arrayBuffer; call_load; call_json5_parse data;
      call_TextDecoder_decode bs; call_json5_parse (Sample.quoted "{'name':'Ann'}")],
     Normal {| metadata := Object [("name", Str "Ann")];
               fallbackAvatar := webp_avatar h file |})
  /\ exists e, json5_parse h data = Throw e.
Proof.
  intros data bs tag h file.
  destruct (fromFile_webp_byte_array h file {[ "UserComment" := tag ]} tag data
              eq_refl eq_refl eq_refl eq_refl eq_refl) as [Hdecoded Honly].
  assert (Hrun := Hdecoded SyntaxError bs _ eq_refl eq_refl eq_refl).
  split; [exact Hrun|].
  apply (Honly bs). rewrite Hrun. simpl. rewrite !elem_of_cons. tauto.
Defined.

(** *** PNG *)

Lemma map_io_decode h (texts : list Png.Chunk) (decoded : list Png.Text) :
  Forall2 (fun chunk d => decode h (Png.data chunk) = Normal d) texts decoded ->
  map_io (fun d => perform (call_decode (Png.data d)) (decode h (Png.data d))) texts
  = (map (fun chunk => call_decode (Png.data chunk)) texts, Normal decoded).
Proof.
  induction 1 as [|chunk d texts decoded Hd _ IH]; [reflexivity|].
  simpl. rewrite Hd. simpl. rewrite IH. simpl. now rewrite app_nil_r.
Qed.

Lemma decode_all h (P : Png.Text -> Prop) (texts : list Png.Chunk) :
  (forall chunk, chunk ∈ texts -> exists d, decode h (Png.data chunk) = Normal d /\ P d) ->
  exists decoded,
    Forall2 (fun chunk d => decode h (Png.data chunk) = Normal d) texts decoded
    /\ Forall P decoded.
Proof.
  induction texts as [|chunk texts IH]; intros Hall.
  - exists []. split; constructor.
  - destruct (Hall chunk) as (d & Hd & HP); [left|].
    destruct IH as (decoded & Hdecoded & HPs); [intros c Hc; apply Hall; now right|].
    exists (d :: decoded). split; constructor; assumption.
Qed.

Lemma find_chara_none (decoded : list Png.Text) :
  Forall (fun d => Png.keyword d <> "chara") decoded ->
  List.find (fun d => String.eqb (Png.keyword d) "chara") decoded = None.
Proof.
  induction 1 as [|d decoded Hd _ IH]; simpl; [reflexivity|].
  destruct (String.eqb_spec (Png.keyword d) "chara"); [contradiction | exact IH].
Qed.

(** C7, as stated, fails: a PNG with no [chara] chunk and a [tEXt] chunk
    that does not decode fails with the exception of [decode], since
    every [tEXt] chunk is decoded before the keyword is looked for. *)
Lemma fromFile_png_undecodable_text_chunk :
  let chunks := [IHDR; broken_text; IDAT; IEND] in
  let h := Sample.host chunks ∅ in
  forallb (fun chunk => negb (is_chara h chunk)) chunks = true
  /\ fromFile h (png_file chunks)
     = ([await_arrayBuffer; call_pngExtract; call_decode (Png.data broken_text)],
        Throw (CodecError "Invalid NULL character found"))
  /\ Throw (CodecError "Invalid NULL character found") <> @Throw Character NoMetadataFound.
Proof.
  intros chunks h. split; [|split].
  - vm_compute. reflexivity.
  - vm_compute. reflexivity.
  - discriminate.
Qed.

(** C7, amended. When every [tEXt] chunk of a PNG decodes, and decodes
    to a keyword other than [chara] (in particular when there is no
    [tEXt] chunk), extraction fails with [NoMetadataFound]: no
    [Character] is returned, and neither the JSON parser nor the encoder
    is called. *)
Theorem fromFile_png_no_chara (h : Host) (file : File) (chunks : list Png.Chunk) :
  type file = "image/png" ->
  pngExtract h (content file) = Normal chunks ->
  (forall chunk, chunk ∈ chunks -> Png.name chunk = "tEXt" ->
     exists d, decode h (Png.data chunk) = Normal d /\ Png.keyword d <> "chara") ->
  fromFile h file = (png_prefix chunks, Throw NoMetadataFound).
Proof.
  intros Htype Hextract Hall.
  destruct (decode_all h (fun d => Png.keyword d <> "chara")
              (filter (fun chunk => Png.name chunk = "tEXt") chunks))
    as (decoded & Hdecoded & Hkeys).
  { intros chunk [Hname Hin]%list_elem_of_filter. now apply Hall. }
  rewrite (fromFile_png _ _ Htype). unfold fromPng, png_prefix. simpl.
  rewrite Hextract. simpl. rewrite (map_io_decode _ _ _ Hdecoded). simpl.
  rewrite (find_chara_none _ Hkeys). simpl. now rewrite app_nil_r.
Qed.

(** C7, amended, on a PNG whose only text chunk is a comment. *)
Lemma fromFile_png_no_chara_witness :
  let chunks := [IHDR; comment; IDAT; IEND] in
  fromFile (Sample.host chunks ∅) (png_file chunks)
  = ([await_arrayBuffer; call_pngExtract; call_decode (Png.data comment)],
     Throw NoMetadataFound).
Proof.
  intros chunks.
  apply (fromFile_png_no_chara (Sample.host chunks ∅) (png_file chunks) chunks);
    [reflexivity | reflexivity |].
  intros chunk Hin Hname. subst chunks.
  rewrite !elem_of_cons, elem_of_nil in Hin.
  destruct Hin as [->|[->|[->|[->|[]]]]]; try discriminate Hname.
  eexists. split; [reflexivity | discriminate].
Defined.

(** C6. Let the first decoded [tEXt] chunk with the keyword [chara] hold
    the base64 of JSON for an object.  Then extraction succeeds; its
    metadata is the [data] member of the object when the member
    [spec_version] is the string ["2.0"], and the object itself for any
    other [spec_version] or none. *)
Theorem fromFile_png_spec_version (h : Host) (file : File) (chunks : list Png.Chunk)
    (decoded : list Png.Text) (extChunk : Png.Text) (card : list (string * value))
    (encoded : list Z) :
  type file = "image/png" ->
  pngExtract h (content file) = Normal chunks ->
  Forall2 (fun chunk d => decode h (Png.data chunk) = Normal d)
          (filter (fun chunk => Png.name chunk = "tEXt") chunks) decoded ->
  List.find (fun d => String.eqb (Png.keyword d) "chara") decoded = Some extChunk ->
  JSON_parse h (Buffer_from_base64_toString_utf8 h (Png.text extChunk)) = Normal (Object card) ->
  pngEncode h (filter (fun chunk => Png.name chunk <> "tEXt") chunks) = Normal encoded ->
  exists c,
    fromFile h file
    = ((png_prefix chunks
        ++ [call_JSON_parse (Buffer_from_base64_toString_utf8 h (Png.text extChunk));
            call_pngEncode])%list,
       Normal c)
    /\ (Js.lookup_property "spec_version" card = Some (Str "2.0") ->
        metadata c = default Undefined (Js.lookup_property "data" card))
    /\ (Js.lookup_property "spec_version" card <> Some (Str "2.0") ->
        metadata c = Object card).
Proof.
  intros Htype Hextract Hdecoded Hfind Hparse Hencode.
  rewrite (fromFile_png _ _ Htype). unfold fromPng, png_prefix. simpl.
  rewrite Hextract. simpl. rewrite (map_io_decode _ _ _ Hdecoded). simpl.
  rewrite Hfind. simpl. rewrite Hparse. simpl. rewrite Hencode. simpl.
  destruct (Js.lookup_property "spec_version" card) as [[| | | |version| |]|] eqn:Hversion;
    simpl; try (eexists; split; [rewrite ?app_nil_r; reflexivity|];
                split; [discriminate | reflexivity]).
  destruct (String.eqb_spec version "2.0") as [->|Hother]; simpl;
    eexists; (split; [rewrite ?app_nil_r; reflexivity|]); split; intros Hcase;
    first [reflexivity | congruence].
Qed.

(** C6 on the sample host, for a version-2 card and for a card of the
    older schema. *)
Lemma fromFile_png_spec_version_witness :
  let v2 := [IHDR; chara_v2; IDAT; IEND] in
  let v1 := [IHDR; chara_v1; IDAT; IEND] in
  (exists t c, fromFile (Sample.host v2 ∅) (png_file v2) = (t, Normal c)
               /\ metadata c = Object [("name", Str "Ann")])
  /\ (exists t c, fromFile (Sample.host v1 ∅) (png_file v1) = (t, Normal c)
                  /\ metadata c = Object [("char_name", Str "Ann")]).
Proof.
  intros v2 v1. split.
  - assert (Hextract : pngExtract (Sample.host v2 ∅) (content (png_file v2)) = Normal v2)
      by (vm_compute; reflexivity).
    destruct (fromFile_png_spec_version (Sample.host v2 ∅) (png_file v2) v2
                [{| Png.keyword := "chara";
                    Png.text := "eyJzcGVjX3ZlcnNpb24iOiIyLjAiLCJkYXRhIjp7Im5hbWUiOiJBbm4ifX0=" |}]
                {| Png.keyword := "chara";
                   Png.text := "eyJzcGVjX3ZlcnNpb24iOiIyLjAiLCJkYXRhIjp7Im5hbWUiOiJBbm4ifX0=" |}
                [("spec_version", Str "2.0"); ("data", Object [("name", Str "Ann")])]
                (Sample.png_encode [IHDR; IDAT; IEND]) eq_refl Hextract)
      as (c & Hrun & Hv2 & _);
      [repeat constructor | reflexivity | vm_compute; reflexivity | vm_compute; reflexivity |].
    eexists _, c. split; [exact Hrun | apply Hv2; reflexivity].
  - assert (Hextract : pngExtract (Sample.host v1 ∅) (content (png_file v1)) = Normal v1)
      by (vm_compute; reflexivity).
    destruct (fromFile_png_spec_version (Sample.host v1 ∅) (png_file v1) v1
                [{| Png.keyword := "chara"; Png.text := "eyJjaGFyX25hbWUiOiJBbm4ifQ==" |}]
                {| Png.keyword := "chara"; Png.text := "eyJjaGFyX25hbWUiOiJBbm4ifQ==" |}
                [("char_name", Str "Ann")]
                (Sample.png_encode [IHDR; IDAT; IEND]) eq_refl Hextract)
      as (c & Hrun & _ & Hv1);
      [repeat constructor | reflexivity | vm_compute; reflexivity | vm_compute; reflexivity |].
    eexists _, c. split; [exact Hrun | apply Hv1; discriminate].
Defined.

(** C8, as stated, fails: a text chunk with another keyword is removed
    as well, so the fallback avatar is not the encoding of the chunks
    without [chara]. *)
Lemma fromFile_png_drops_every_text_chunk :
  let chunks := [IHDR; chara_v1; comment; IDAT; IEND] in
  let h := Sample.host chunks ∅ in
  (fromFile h (png_file chunks)).2
  = Normal {| metadata := Object [("char_name", Str "Ann")];
              fallbackAvatar := png_avatar h (Sample.png_encode [IHDR; IDAT; IEND]) |}
  /\ without_chara h chunks = [IHDR; comment; IDAT; IEND]
  /\ png_avatar h (Sample.png_encode [IHDR; IDAT; IEND])
     <> png_avatar h (Sample.png_encode (without_chara h chunks)).
Proof.
  intros chunks h. split; [|split].
  - vm_compute. reflexivity.
  - vm_compute. reflexivity.
  - intros H. vm_compute in H. discriminate H.
Qed.

Lemma fromPng_returns h file t c :
  fromPng h file = (t, Normal c) ->
  exists chunks encoded,
    pngExtract h (content file) = Normal chunks
    /\ pngEncode h (residual chunks) = Normal encoded
    /\ fallbackAvatar c = png_avatar h encoded.
Proof.
  unfold fromPng, residual. simpl.
  destruct (pngExtract h (content file)) as [chunks|] eqn:Hextract; simpl; [|discriminate].
  destruct (map_io _ _) as [t1 [decoded|]]; simpl; [|discriminate].
  destruct (List.find _ decoded) as [extChunk|]; simpl; [|discriminate].
  destruct (JSON_parse h _) as [card|]; simpl; [|discriminate].
  destruct (pngEncode h _) as [encoded|] eqn:Hencode; simpl; [|discriminate].
  destruct (Js.get card "spec_version") as [version|]; simpl; [|discriminate].
  destruct (Js.strict_eq_str version "2.0"); simpl;
    [destruct (Js.get card "data") as [data|]; simpl; [|discriminate]|];
    intros [= <- <-]; exists chunks, encoded; auto.
Qed.

(** C8, amended. For every PNG from which extraction succeeds, the
    fallback avatar is the data URI of the encoding of the chunk sequence
    with every [tEXt] chunk removed, those with a keyword other than
    [chara] included: the encoder is given exactly the chunks of another
    name, unchanged and in the order of the file. *)
Theorem fromFile_png_fallback_avatar (h : Host) (file : File) (chunks : list Png.Chunk)
    (t : list Event) (c : Character) :
  type file = "image/png" ->
  pngExtract h (content file) = Normal chunks ->
  fromFile h file = (t, Normal c) ->
  (exists encoded,
     pngEncode h (residual chunks) = Normal encoded
     /\ fallbackAvatar c = "data:image/png;base64," +:+ Buffer_toString_base64 h encoded)
  /\ (forall chunk, chunk ∈ residual chunks <-> chunk ∈ chunks /\ Png.name chunk <> "tEXt")
  /\ residual chunks `sublist_of` chunks.
Proof.
  intros Htype Hextract Hrun. rewrite (fromFile_png _ _ Htype) in Hrun.
  apply fromPng_returns in Hrun as (chunks' & encoded & Hextract' & Hencode & Havatar).
  rewrite Hextract in Hextract'. injection Hextract' as <-.
  split; [now exists encoded|]. split.
  - intros chunk. unfold residual. rewrite list_elem_of_filter. tauto.
  - apply sublist_filter.
Qed.

(** C8, amended, on the sample host. *)
Lemma fromFile_png_fallback_avatar_witness :
  let chunks := [IHDR; chara_v1; comment; IDAT; IEND] in
  let h := Sample.host chunks ∅ in
  residual chunks = [IHDR; IDAT; IEND]
  /\ exists t c,
       fromFile h (png_file chunks) = (t, Normal c)
       /\ fallbackAvatar c
          = "data:image/png;base64," +:+ Sample.base64_encode (Sample.png_encode [IHDR; IDAT; IEND]).
Proof.
  intros chunks h. split; [reflexivity|].
  assert (Hextract : pngExtract h (content (png_file chunks)) = Normal chunks)
    by (vm_compute; reflexivity).
  destruct (fromFile h (png_file chunks)) as [t [c|e]] eqn:Hrun;
    [|vm_compute in Hrun; discriminate Hrun].
  exists t, c. split; [reflexivity|].
  destruct (fromFile_png_fallback_avatar h (png_file chunks) chunks t c eq_refl Hextract Hrun)
    as ((encoded & Hencode & Havatar) & _).
  injection Hencode as <-. exact Havatar.
Defined.

(** ** Further properties of [fromFile] and of the accessors *)

(** *** The JSON case *)

(** X1. A JSON file is parsed strictly and the completion of the parser
    is the completion of the extraction: the parsed value is the metadata
    as it is, an envelope with [spec_version] included, the fallback
    avatar is [""], and an exception of the parser is the exception of
    [fromFile]. *)
Theorem fromFile_json_as_parsed (h : Host) (file : File) :
  type file = "application/json" ->
  fromFile h file
  = ([await_text; call_JSON_parse (File_text h (content file))],
     match JSON_parse h (File_text h (content file)) with
     | Normal card => Normal {| metadata := card; fallbackAvatar := "" |}
     | Throw e => Throw e
     end).
Proof.
  intros Htype. rewrite (fromFile_json _ _ Htype). unfold fromJson. simpl.
  destruct (JSON_parse h _); reflexivity.
Qed.

(** X1 on a version-2 envelope: the envelope itself is the metadata. *)
Lemma fromFile_json_as_parsed_witness :
  let text := Sample.quoted "{'spec_version':'2.0','data':{'name':'Ann'}}" in
  fromFile (Sample.host [] ∅)
           {| type := "application/json"; content := Sample.bytes_of_string text |}
  = ([await_text; call_JSON_parse text],
     Normal {| metadata := Object [("spec_version", Str "2.0");
                                   ("data", Object [("name", Str "Ann")])];
               fallbackAvatar := "" |}).
Proof.
  intros text.
  exact (fromFile_json_as_parsed (Sample.host [] ∅)
           {| type := "application/json"; content := Sample.bytes_of_string text |} eq_refl).
Defined.

(** *** Accessors on metadata that is no record *)

(** X6. On metadata that is [null] or [undefined] each accessor throws a
    [TypeError]; on metadata that is a boolean, a number, a string or an
    array, [avatar] is the fallback avatar and [description] and [name]
    are [""]. *)
Theorem accessors_without_record (v : value) (fallback : option string) :
  let this := new_Character v fallback in
  (v = Null \/ v = Undefined ->
   avatar this = Throw TypeError /\ description this = Throw TypeError
   /\ name this = Throw TypeError)
  /\ (v <> Null -> v <> Undefined -> (forall ps, v <> Object ps) ->
      avatar this = Normal (Str (default "" fallback))
      /\ description this = Normal (Str "") /\ name this = Normal (Str "")).
Proof.
  intros this. split.
  - intros [-> | ->]; repeat split; reflexivity.
  - intros Hnull Hundefined Hobject.
    destruct v as [| | | | | |ps]; try contradiction;
      [repeat split; reflexivity.. | now destruct (Hobject ps)].
Qed.

(** X6 on [null] and on a string. *)
Lemma accessors_without_record_witness :
  name (new_Character Null None) = Throw TypeError
  /\ avatar (new_Character (Str "Ann") (Some "data:image/png;base64,AAAA"))
     = Normal (Str "data:image/png;base64,AAAA").
Proof.
  split.
  - apply (proj1 (accessors_without_record Null None)). now left.
  - apply (proj2 (accessors_without_record (Str "Ann") (Some "data:image/png;base64,AAAA")));
      discriminate.
Defined.

(** *** The description path of the WebP case *)

(** X7. When the description of [UserComment] is neither empty nor the
    sentinel, it alone is parsed: the completion of the permissive parser
    on it is the completion of the extraction, whatever the value of the
    tag holds. *)
Theorem fromFile_webp_description_path (h : Host) (file : File)
    (tags : gmap string Exif.Tag) (tag : Exif.Tag) (text : string) :
  type file = "image/webp" ->
  load h (content file) = Normal tags ->
  tags !! "UserComment" = Some tag ->
  Exif.description tag = Some text ->
  text <> "" -> text <> "Undefined" ->
  fromFile h file
  = ([await_arrayBuffer; call_load; call_json5_parse text],
     match json5_parse h text with
     | Normal card => Normal {| metadata := card; fallbackAvatar := webp_avatar h file |}
     | Throw e => Throw e
     end).
Proof.
  intros Htype Hload Htag Hd Hempty Hsentinel. enter_webp Htype Hload.
  unfold fromUserComment. rewrite Htag, Hd.
  destruct (String.eqb_spec text ""); [contradiction|].
  destruct (String.eqb_spec text "Undefined"); [contradiction|]. simpl.
  unfold after_UserComment. simpl. destruct (json5_parse h text); reflexivity.
Qed.

(** X7 on the sample host: the value holds another card, which is not
    read. *)
Lemma fromFile_webp_description_path_witness :
  let text := Sample.quoted "{'name': 'Ann'}" in
  let tag := {| Exif.description := Some text;
                Exif.value := Some [Sample.quoted "{'name': 'Bob'}"] |} in
  let h := Sample.host [] {[ "UserComment" := tag ]} in
  let file := {| type := "image/webp"; content := riff |} in
  fromFile h file
  = ([await_arrayBuffer; call_load; call_json5_parse text],
     Normal {| metadata := Object [("name", Str "Ann")];
               fallbackAvatar := webp_avatar h file |}).
Proof.
  intros text tag h file.
  apply (fromFile_webp_description_path h file {[ "UserComment" := tag ]} tag text);
    solve [reflexivity | discriminate].
Defined.

(** *** Bytes out of range on the byte-array path *)

Lemma uint8Array_decimal h (tokens : list string) (ns : list Z) :
  Forall2 (fun token n => decimal token = Some n /\ n < 2 ^ 53) tokens ns ->
  map (toUint8 h) tokens = map (fun n => n mod 256) ns.
Proof.
  induction 1 as [|token n tokens ns [Hn Hlt] _ IH]; simpl; [reflexivity|].
  unfold toUint8 at 1. rewrite Hn. destruct (Z.ltb_spec n (2 ^ 53)); [|lia].
  now rewrite IH.
Qed.

(** X12. On the value-array path, when the direct parse of the element
    throws and the element is a comma-separated list of decimal numbers
    below 2^53, each number is stored modulo 256: a number above 255 is
    not refused.  The text these bytes decode to is parsed, and the
    completion of that parse is the completion of the extraction. *)
Theorem fromFile_webp_bytes_wrap (h : Host) (file : File)
    (tags : gmap string Exif.Tag) (tag : Exif.Tag) (data : string) (ns : list Z)
    (e : Error) :
  type file = "image/webp" ->
  load h (content file) = Normal tags ->
  tags !! "UserComment" = Some tag ->
  Exif.description tag = Some "Undefined" ->
  Exif.value tag = Some [data] ->
  json5_parse h data = Throw e ->
  Forall2 (fun token n => decimal token = Some n /\ n < 2 ^ 53) (Js.split "," data) ns ->
  let bytes := map (fun n => n mod 256) ns in
  fromFile h file
  = ([await_arrayBuffer; call_load; call_json5_parse data;
      call_TextDecoder_decode bytes; call_json5_parse (TextDecoder_decode h bytes)],
     match json5_parse h (TextDecoder_decode h bytes) with
     | Normal card => Normal {| metadata := card; fallbackAvatar := webp_avatar h file |}
     | Throw e' => Throw e'
     end).
Proof.
  intros Htype Hload Htag Hd Hv Hdirect Htokens bytes. enter_webp Htype Hload.
  rewrite (fromUserComment_sentinel _ _ _ _ _ Htag Hd Hv).
  destruct (String.eqb_spec data "") as [->|_].
  { simpl in Htokens. inversion Htokens as [|? ? ? ? [Hn _]]. discriminate Hn. }
  unfold parseUserComment, after_UserComment. simpl.
  rewrite Hdirect, (uint8Array_decimal _ _ _ Htokens). simpl. fold bytes.
  destruct (json5_parse h (TextDecoder_decode h bytes)); reflexivity.
Qed.

(** X12 on the sample host: 379 and 381 are stored as 123 and 125, the
    bytes of an empty object. *)
Lemma fromFile_webp_bytes_wrap_witness :
  let tag := {| Exif.description := Some "Undefined"; Exif.value := Some ["379,381"] |} in
  let h := Sample.host [] {[ "UserComment" := tag ]} in
  let file := {| type := "image/webp"; content := riff |} in
  fromFile h file
  = ([await_arrayBuffer; call_load; call_json5_parse "379,381";
      call_TextDecoder_decode [123; 125]; call_json5_parse "{}"],
     Normal {| metadata := Object []; fallbackAvatar := webp_avatar h file |}).
Proof.
  intros tag h file.
  apply (fromFile_webp_bytes_wrap h file {[ "UserComment" := tag ]} tag "379,381"
           [379; 381] SyntaxError); try reflexivity.
  repeat constructor.
Defined.

(** *** The PNG case beyond a well-formed card *)

(** Enters the PNG case of a file whose chunks were read and whose text
    chunks were decoded. *)
Ltac enter_png Htype Hextract Hdecoded :=
  rewrite (fromFile_png _ _ Htype); unfold fromPng, png_prefix; simpl;
  rewrite Hextract; simpl; rewrite (map_io_decode _ _ _ Hdecoded); simpl.

Lemma map_io_decode_fails h (pre post : list Png.Chunk) (bad : Png.Chunk)
    (decoded : list Png.Text) (e : Error) :
  Forall2 (fun chunk d => decode h (Png.data chunk) = Normal d) pre decoded ->
  decode h (Png.data bad) = Throw e ->
  map_io (fun d => perform (call_decode (Png.data d)) (decode h (Png.data d)))
         (pre ++ bad :: post)
  = ((map (fun chunk => call_decode (Png.data chunk)) pre ++ [call_decode (Png.data bad)])%list,
     Throw e).
Proof.
  intros Hpre Hbad. induction Hpre as [|chunk d pre decoded Hd _ IH]; simpl.
  - now rewrite Hbad.
  - rewrite Hd. simpl. now rewrite IH.
Qed.

(** X3. Every [tEXt] chunk is decoded before the keyword [chara] is
    looked for: when a [tEXt] chunk does not decode, extraction fails
    with the exception of [decode], also when a chunk before it is a
    [chara] chunk, and neither the JSON parser nor the encoder is
    called. *)
Theorem fromFile_png_decode_failure (h : Host) (file : File) (chunks pre post : list Png.Chunk)
    (bad : Png.Chunk) (decoded : list Png.Text) (e : Error) :
  type file = "image/png" ->
  pngExtract h (content file) = Normal chunks ->
  filter (fun chunk => Png.name chunk = "tEXt") chunks = (pre ++ bad :: post)%list ->
  Forall2 (fun chunk d => decode h (Png.data chunk) = Normal d) pre decoded ->
  decode h (Png.data bad) = Throw e ->
  fromFile h file
  = (await_arrayBuffer :: call_pngExtract
     :: (map (fun chunk => call_decode (Png.data chunk)) pre
         ++ [call_decode (Png.data bad)])%list,
     Throw e).
Proof.
  intros Htype Hextract Htexts Hpre Hbad.
  rewrite (fromFile_png _ _ Htype). unfold fromPng. simpl. rewrite Hextract. simpl.
  rewrite Htexts, (map_io_decode_fails _ _ _ _ _ _ Hpre Hbad). reflexivity.
Qed.

(** X3 on the sample host: a card, then a text chunk that does not
    decode. *)
Lemma fromFile_png_decode_failure_witness :
  let chunks := [IHDR; chara_v1; broken_text; IDAT; IEND] in
  fromFile (Sample.host chunks ∅) (png_file chunks)
  = ([await_arrayBuffer; call_pngExtract; call_decode (Png.data chara_v1);
      call_decode (Png.data broken_text)],
     Throw (CodecError "Invalid NULL character found")).
Proof.
  intros chunks.
  assert (Hextract : pngExtract (Sample.host chunks ∅) (content (png_file chunks))
                     = Normal chunks) by (vm_compute; reflexivity).
  apply (fromFile_png_decode_failure (Sample.host chunks ∅) (png_file chunks) chunks
           [chara_v1] [] broken_text
           [{| Png.keyword := "chara"; Png.text := "eyJjaGFyX25hbWUiOiJBbm4ifQ==" |}]
           _ eq_refl Hextract);
    [reflexivity | repeat constructor | reflexivity].
Defined.

(** X4. A payload that is not JSON fails with the exception of the
    strict parser, before the encoder is called; a payload that is the
    JSON text [null] fails with a [TypeError], raised by the read of
    [spec_version] after the encoder has run. *)
Theorem fromFile_png_payload_failures (h : Host) (file : File) (chunks : list Png.Chunk)
    (decoded : list Png.Text) (extChunk : Png.Text) :
  type file = "image/png" ->
  pngExtract h (content file) = Normal chunks ->
  Forall2 (fun chunk d => decode h (Png.data chunk) = Normal d)
          (filter (fun chunk => Png.name chunk = "tEXt") chunks) decoded ->
  List.find (fun d => String.eqb (Png.keyword d) "chara") decoded = Some extChunk ->
  let payload := Buffer_from_base64_toString_utf8 h (Png.text extChunk) in
  (forall e, JSON_parse h payload = Throw e ->
     fromFile h file = ((png_prefix chunks ++ [call_JSON_parse payload])%list, Throw e))
  /\ (forall card encoded,
        JSON_parse h payload = Normal card ->
        card = Null \/ card = Undefined ->
        pngEncode h (residual chunks) = Normal encoded ->
        fromFile h file
        = ((png_prefix chunks ++ [call_JSON_parse payload; call_pngEncode])%list,
           Throw TypeError)).
Proof.
  intros Htype Hextract Hdecoded Hfind payload. split.
  - intros e Hparse. enter_png Htype Hextract Hdecoded. rewrite Hfind. simpl.
    fold payload. rewrite Hparse. reflexivity.
  - intros card encoded Hparse Hnull Hencode. enter_png Htype Hextract Hdecoded.
    rewrite Hfind. simpl. fold payload. rewrite Hparse. simpl.
    unfold residual in Hencode. rewrite Hencode. simpl.
    destruct Hnull as [-> | ->]; simpl; rewrite ?app_nil_r; reflexivity.
Qed.

(** X4 on the sample host: a payload of one brace, and a payload of
    [null]. *)
Lemma fromFile_png_payload_failures_witness :
  let unparsable := [IHDR; chara_unparsable; IDAT; IEND] in
  let null := [IHDR; chara_null; IDAT; IEND] in
  fromFile (Sample.host unparsable ∅) (png_file unparsable)
  = ([await_arrayBuffer; call_pngExtract; call_decode (Png.data chara_unparsable);
      call_JSON_parse "{"],
     Throw SyntaxError)
  /\ fromFile (Sample.host null ∅) (png_file null)
     = ([await_arrayBuffer; call_pngExtract; call_decode (Png.data chara_null);
         call_JSON_parse "null"; call_pngEncode],
        Throw TypeError).
Proof.
  intros unparsable null. split.
  - assert (Hextract : pngExtract (Sample.host unparsable ∅) (content (png_file unparsable))
                       = Normal unparsable) by (vm_compute; reflexivity).
    apply (fromFile_png_payload_failures (Sample.host unparsable ∅) (png_file unparsable)
             unparsable [{| Png.keyword := "chara"; Png.text := "ew==" |}]
             {| Png.keyword := "chara"; Png.text := "ew==" |} eq_refl Hextract);
      [repeat constructor | reflexivity | reflexivity].
  - assert (Hextract : pngExtract (Sample.host null ∅) (content (png_file null))
                       = Normal null) by (vm_compute; reflexivity).
    apply (fromFile_png_payload_failures (Sample.host null ∅) (png_file null)
             null [{| Png.keyword := "chara"; Png.text := "bnVsbA==" |}]
             {| Png.keyword := "chara"; Png.text := "bnVsbA==" |} eq_refl Hextract
             ltac:(repeat constructor) eq_refl)
      with (card := Null) (encoded := Sample.png_encode [IHDR; IDAT; IEND]);
      [reflexivity | now left | reflexivity].
Defined.

(** X5. An envelope with [spec_version] ["2.0"] and no [data] member is
    not refused: extraction succeeds with [undefined] as the metadata,
    and every accessor of the resulting [Character] throws a
    [TypeError]. *)
Theorem fromFile_png_envelope_without_data (h : Host) (file : File) (chunks : list Png.Chunk)
    (decoded : list Png.Text) (extChunk : Png.Text) (card : list (string * value))
    (encoded : list Z) :
  type file = "image/png" ->
  pngExtract h (content file) = Normal chunks ->
  Forall2 (fun chunk d => decode h (Png.data chunk) = Normal d)
          (filter (fun chunk => Png.name chunk = "tEXt") chunks) decoded ->
  List.find (fun d => String.eqb (Png.keyword d) "chara") decoded = Some extChunk ->
  JSON_parse h (Buffer_from_base64_toString_utf8 h (Png.text extChunk)) = Normal (Object card) ->
  Js.lookup_property "spec_version" card = Some (Str "2.0") ->
  Js.lookup_property "data" card = None ->
  pngEncode h (residual chunks) = Normal encoded ->
  exists t c,
    fromFile h file = (t, Normal c)
    /\ metadata c = Undefined
    /\ avatar c = Throw TypeError /\ description c = Throw TypeError
    /\ name c = Throw TypeError.
Proof.
  intros Htype Hextract Hdecoded Hfind Hparse Hversion Hdata Hencode.
  enter_png Htype Hextract Hdecoded. rewrite Hfind. simpl. rewrite Hparse. simpl.
  unfold residual in Hencode. rewrite Hencode. simpl. rewrite Hversion, Hdata. simpl.
  eexists _, _. split; [reflexivity|]. repeat split; reflexivity.
Qed.

(** X5 on the sample host: the name stands beside [spec_version] and not
    under [data]. *)
Lemma fromFile_png_envelope_without_data_witness :
  let chunks := [IHDR; chara_v2_bare; IDAT; IEND] in
  exists t c,
    fromFile (Sample.host chunks ∅) (png_file chunks) = (t, Normal c)
    /\ metadata c = Undefined
    /\ avatar c = Throw TypeError /\ description c = Throw TypeError
    /\ name c = Throw TypeError.
Proof.
  intros chunks.
  assert (Hextract : pngExtract (Sample.host chunks ∅) (content (png_file chunks))
                     = Normal chunks) by (vm_compute; reflexivity).
  apply (fromFile_png_envelope_without_data (Sample.host chunks ∅) (png_file chunks) chunks
           [{| Png.keyword := "chara";
               Png.text := "eyJzcGVjX3ZlcnNpb24iOiIyLjAiLCJuYW1lIjoiQW5uIn0=" |}]
           {| Png.keyword := "chara";
              Png.text := "eyJzcGVjX3ZlcnNpb24iOiIyLjAiLCJuYW1lIjoiQW5uIn0=" |}
           [("spec_version", Str "2.0"); ("name", Str "Ann")]
           (Sample.png_encode [IHDR; IDAT; IEND]) eq_refl Hextract);
    [repeat constructor | reflexivity | vm_compute; reflexivity | reflexivity
    | reflexivity | vm_compute; reflexivity].
Defined.

Lemma residual_has_no_text (chunks : list Png.Chunk) :
  filter (fun chunk => Png.name chunk = "tEXt") (residual chunks) = [].
Proof.
  unfold residual. induction chunks as [|chunk chunks IH]; [reflexivity|].
  rewrite (filter_cons (fun chunk => Png.name chunk <> "tEXt")).
  destruct (decide (Png.name chunk <> "tEXt")) as [Hname|_]; [|exact IH].
  rewrite (filter_cons (fun chunk => Png.name chunk = "tEXt")).
  destruct (decide (Png.name chunk = "tEXt")); [contradiction | exact IH].
Qed.

(** X13. What the encoder is given never holds a card: a PNG file that
    the reader splits into the residual chunks of any chunk sequence
    fails with [NoMetadataFound], and no chunk of it is decoded. *)
Theorem fromFile_png_residual_holds_no_card (h : Host) (file : File)
    (chunks : list Png.Chunk) :
  type file = "image/png" ->
  pngExtract h (content file) = Normal (residual chunks) ->
  fromFile h file = ([await_arrayBuffer; call_pngExtract], Throw NoMetadataFound).
Proof.
  intros Htype Hextract.
  rewrite (fromFile_png _ _ Htype). unfold fromPng. simpl. rewrite Hextract. simpl.
  rewrite residual_has_no_text. reflexivity.
Qed.

(** X13 on the sample host: the file encoded from the residual chunks of
    a card. *)
Lemma fromFile_png_residual_holds_no_card_witness :
  let card := [IHDR; chara_v1; comment; IDAT; IEND] in
  fromFile (Sample.host (residual card) ∅) (png_file (residual card))
  = ([await_arrayBuffer; call_pngExtract], Throw NoMetadataFound).
Proof.
  intros card.
  apply (fromFile_png_residual_holds_no_card (Sample.host (residual card) ∅)
           (png_file (residual card)) card eq_refl).
  vm_compute. reflexivity.
Defined.

(** *** The events and the exceptions of a computation, step by step *)

Section Steps.
Context {A B : Type}.

Lemma bind_events (P : Event -> Prop) (m : IO A) (f : A -> IO B) :
  Forall P m.1 -> (forall a, Forall P (f a).1) -> Forall P (m ≫= f).1.
Proof.
  destruct m as [t [a|e]]; simpl; intros Ht Hf; [|exact Ht].
  specialize (Hf a). destruct (f a) as [t' r]. simpl in *. apply Forall_app. now split.
Qed.

Lemma bind_raises (Q : Error -> Prop) (m : IO A) (f : A -> IO B) :
  Raises Q m -> (forall a, Raises Q (f a)) -> Raises Q (m ≫= f).
Proof.
  unfold Raises. destruct m as [t [a|e]]; simpl; intros Hm Hf e'.
  - specialize (Hf a e'). destruct (f a) as [t' r]. exact Hf.
  - intros [= <-]. now apply Hm.
Qed.

Lemma perform_first (ev : Event) (a : A) (f : A -> IO B) :
  (perform ev (Normal a) ≫= f).1 = ev :: (f a).1.
Proof. simpl. destruct (f a); reflexivity. Qed.

Lemma perform_then (ev : Event) (a : A) (f : A -> IO B) :
  (perform ev (Normal a) ≫= f).2 = (f a).2.
Proof. simpl. destruct (f a); reflexivity. Qed.

End Steps.

Lemma perform_events {A : Type} (P : Event -> Prop) (ev : Event) (r : Completion A) :
  P ev -> Forall P (perform ev r).1.
Proof. intros H. now repeat constructor. Qed.

Lemma perform_raises {A : Type} (Q : Error -> Prop) (ev : Event) (r : Completion A) :
  (forall e, r = Throw e -> Q e) -> Raises Q (perform ev r).
Proof. intros H e. exact (H e). Qed.

Lemma try_catch_events {A : Type} (P : Event -> Prop) (body handler : IO A) :
  Forall P body.1 -> Forall P handler.1 -> Forall P (try_catch body handler).1.
Proof.
  destruct body as [t [a|e]], handler as [t' r]; simpl; intros Ht Ht'; [exact Ht|].
  apply Forall_app. now split.
Qed.

(** The exception of the body of a [try] is never the exception of the
    statement. *)
Lemma try_catch_raises {A : Type} (Q : Error -> Prop) (body handler : IO A) :
  Raises Q handler -> Raises Q (try_catch body handler).
Proof.
  unfold Raises. destruct body as [t [a|e]], handler as [t' r]; simpl; intros H e'.
  - discriminate.
  - exact (H e').
Qed.

Lemma map_io_decode_events h (P : Event -> Prop) (texts : list Png.Chunk) :
  (forall data, P (call_decode data)) ->
  Forall P (map_io (fun d => perform (call_decode (Png.data d)) (decode h (Png.data d)))
                   texts).1.
Proof.
  intros HP. induction texts as [|chunk texts IH]; [constructor|].
  cbn [map_io]. apply bind_events; [now apply perform_events|]. intros d.
  apply bind_events; [exact IH|]. intros ds. constructor.
Qed.

Lemma map_io_decode_raises h (Q : Error -> Prop) (texts : list Png.Chunk) :
  (forall data e, decode h data = Throw e -> Q e) ->
  Raises Q (map_io (fun d => perform (call_decode (Png.data d)) (decode h (Png.data d)))
                   texts).
Proof.
  intros HQ. induction texts as [|chunk texts IH]; [intros e; discriminate|].
  cbn [map_io]. apply bind_raises; [apply perform_raises, HQ|]. intros d.
  apply bind_raises; [exact IH|]. intros ds e. discriminate.
Qed.

Lemma get_throws (v : value) (k : string) (e : Error) : Js.get v k = Throw e -> e = TypeError.
Proof. destruct v; simpl; congruence. Qed.

Lemma fromFile_unsupported_type_run h file :
  type file ∉ VALID_FILE_TYPES -> fromFile h file = assertUnreachable (type file).
Proof.
  unfold VALID_FILE_TYPES. rewrite !not_elem_of_cons. intros (H1 & H2 & H3 & _).
  unfold fromFile.
  destruct (String.eqb_spec (type file) "application/json"); [contradiction|].
  destruct (String.eqb_spec (type file) "image/png"); [contradiction|].
  destruct (String.eqb_spec (type file) "image/webp"); [contradiction|].
  reflexivity.
Qed.

(** *** Which events a case leaves *)

Lemma fromPng_events h file :
  exists t, (fromPng h file).1 = await_arrayBuffer :: t
            /\ Forall (fun ev => png_call ev = true) t.
Proof.
  unfold fromPng. rewrite perform_first. eexists. split; [reflexivity|].
  apply bind_events; [now apply perform_events|]. intros chunks.
  apply bind_events; [now apply map_io_decode_events|]. intros decoded.
  destruct (List.find _ decoded) as [extChunk|]; [|constructor]. cbv zeta.
  apply bind_events; [now apply perform_events|]. intros card.
  apply bind_events; [now apply perform_events|]. intros encoded.
  apply bind_events; [constructor|]. intros spec_version.
  destruct (Js.strict_eq_str spec_version "2.0"); [|constructor].
  apply bind_events; [constructor|]. intros data. constructor.
Qed.

Lemma fromUserComment_events h tags base64Avatar :
  Forall (fun ev => webp_call ev = true) (fromUserComment h tags base64Avatar).1.
Proof.
  unfold fromUserComment.
  destruct (tags !! "UserComment") as [tag|]; [|constructor].
  destruct (Exif.description tag) as [text|]; [|constructor].
  destruct (String.eqb text ""); [constructor|].
  destruct (negb (String.eqb text "Undefined")).
  { apply bind_events; [now apply perform_events|]. intros card. constructor. }
  destruct (Exif.value tag) as [[|data [|? ?]]|]; try constructor.
  destruct (negb (String.eqb data "")); [|constructor].
  apply bind_events; [|intros c; constructor]. unfold parseUserComment.
  apply try_catch_events.
  - apply bind_events; [now apply perform_events|]. intros card. constructor.
  - cbv zeta. apply bind_events; [now apply perform_events|]. intros utf8Data.
    apply bind_events; [now apply perform_events|]. intros card. constructor.
Qed.

Lemma fromWebp_events h file :
  exists t, (fromWebp h file).1 = await_arrayBuffer :: t
            /\ Forall (fun ev => webp_call ev = true) t.
Proof.
  unfold fromWebp. rewrite perform_first. eexists. split; [reflexivity|].
  apply bind_events; [now apply perform_events|]. intros exifData. cbv zeta.
  apply bind_events; [apply fromUserComment_events|]. intros [c|]; constructor.
Qed.

(** X9. For a supported type the content of the file is read once, as
    the first thing: the text of a JSON file, the bytes of a PNG or WebP
    file.  Every later event is a call of the case of that type: the
    strict parser for JSON; the chunk reader, the text-chunk decoder, the
    strict parser and the encoder for PNG; the EXIF reader, the
    permissive parser and the text decoder for WebP. *)
Theorem fromFile_events (h : Host) (file : File) :
  type file ∈ VALID_FILE_TYPES ->
  exists t, (fromFile h file).1 = first_await (type file) :: t
            /\ Forall (fun ev => calls_of (type file) ev = true) t.
Proof.
  unfold VALID_FILE_TYPES. rewrite !elem_of_cons, elem_of_nil.
  unfold first_await, calls_of. intros [Htype | [Htype | [Htype | []]]].
  - rewrite (fromFile_json _ _ Htype), Htype. simpl. unfold fromJson.
    rewrite perform_first. eexists. split; [reflexivity|].
    apply bind_events; [now apply perform_events|]. intros card. constructor.
  - rewrite (fromFile_png _ _ Htype), Htype. simpl. apply fromPng_events.
  - rewrite (fromFile_webp _ _ Htype), Htype. simpl. apply fromWebp_events.
Qed.

(** X9 on the sample host, for the byte-array path of a WebP file. *)
Lemma fromFile_events_witness :
  let tag := {| Exif.description := Some "Undefined"; Exif.value := Some ["123,125"] |} in
  let h := Sample.host [] {[ "UserComment" := tag ]} in
  exists t,
    (fromFile h {| type := "image/webp"; content := riff |}).1 = await_arrayBuffer :: t
    /\ Forall (fun ev => webp_call ev = true) t.
Proof.
  intros tag h.
  apply (fromFile_events h {| type := "image/webp"; content := riff |}).
  unfold VALID_FILE_TYPES. simpl. rewrite !elem_of_cons. tauto.
Defined.

(** *** Which exceptions a case ends with *)

Lemma fromPng_raises h file :
  Raises (fun e => e = NoMetadataFound \/ e = TypeError
                   \/ pngExtract h (content file) = Throw e
                   \/ (exists data, decode h data = Throw e)
                   \/ (exists text, JSON_parse h text = Throw e)
                   \/ (exists chunks, pngEncode h chunks = Throw e))
         (fromPng h file).
Proof.
  unfold fromPng. intros e. rewrite perform_then. revert e.
  apply bind_raises; [apply perform_raises; tauto|]. intros chunks.
  apply bind_raises; [apply map_io_decode_raises; eauto 8|]. intros decoded.
  destruct (List.find _ decoded) as [extChunk|]; [|intros e [= <-]; tauto]. cbv zeta.
  apply bind_raises; [apply perform_raises; eauto 8|]. intros card.
  apply bind_raises; [apply perform_raises; eauto 8|]. intros encoded.
  apply bind_raises; [intros e He%get_throws; tauto|]. intros spec_version.
  destruct (Js.strict_eq_str spec_version "2.0"); [|intros e; discriminate].
  apply bind_raises; [intros e He%get_throws; tauto|]. intros data e. discriminate.
Qed.

Lemma fromUserComment_raises h tags base64Avatar :
  Raises (fun e => exists text, json5_parse h text = Throw e)
         (fromUserComment h tags base64Avatar).
Proof.
  unfold fromUserComment.
  destruct (tags !! "UserComment") as [tag|]; [|intros e; discriminate].
  destruct (Exif.description tag) as [text|]; [|intros e; discriminate].
  destruct (String.eqb text ""); [intros e; discriminate|].
  destruct (negb (String.eqb text "Undefined")).
  { apply bind_raises; [apply perform_raises; eauto|]. intros card e. discriminate. }
  destruct (Exif.value tag) as [[|data [|? ?]]|]; try (intros e; discriminate).
  destruct (negb (String.eqb data "")); [|intros e; discriminate].
  apply bind_raises; [|intros c e; discriminate]. unfold parseUserComment.
  apply try_catch_raises. cbv zeta.
  apply bind_raises; [intros e; discriminate|]. intros utf8Data.
  apply bind_raises; [apply perform_raises; eauto|]. intros card e. discriminate.
Qed.

Lemma fromWebp_raises h file :
  Raises (fun e => e = NoMetadataFound \/ load h (content file) = Throw e
                   \/ exists text, json5_parse h text = Throw e)
         (fromWebp h file).
Proof.
  unfold fromWebp. intros e. rewrite perform_then. revert e.
  apply bind_raises; [apply perform_raises; tauto|]. intros exifData. cbv zeta.
  apply bind_raises.
  - intros e He. right; right. exact (fromUserComment_raises _ _ _ e He).
  - intros [c|] e; [discriminate|]. intros [= <-]. now left.
Qed.

(** X11. Where the exceptions of [fromFile] come from.  A JSON file
    fails with an exception of the strict parser only.  A PNG file fails
    with [NoMetadataFound], with the [TypeError] of a read on a card that
    is [null], or with an exception of the chunk reader, of the
    text-chunk decoder, of the strict parser or of the encoder.  A WebP
    file fails with [NoMetadataFound] or with an exception of the EXIF
    reader or of the permissive parser.  Any other type fails with the
    error of [assertUnreachable]. *)
Theorem fromFile_exceptions (h : Host) (file : File) (e : Error) :
  (fromFile h file).2 = Throw e ->
  (type file = "application/json" -> exists text, JSON_parse h text = Throw e)
  /\ (type file = "image/png" ->
      e = NoMetadataFound \/ e = TypeError
      \/ pngExtract h (content file) = Throw e
      \/ (exists data, decode h data = Throw e)
      \/ (exists text, JSON_parse h text = Throw e)
      \/ (exists chunks, pngEncode h chunks = Throw e))
  /\ (type file = "image/webp" ->
      e = NoMetadataFound \/ load h (content file) = Throw e
      \/ exists text, json5_parse h text = Throw e)
  /\ (type file ∉ VALID_FILE_TYPES -> e = Error_ "Statement should be unreachable").
Proof.
  intros Hthrow. repeat split.
  - intros Htype. rewrite (fromFile_json _ _ Htype) in Hthrow. unfold fromJson in Hthrow.
    rewrite perform_then in Hthrow. simpl in Hthrow.
    destruct (JSON_parse h _) eqn:Hparse; [discriminate|]. injection Hthrow as <-. eauto.
  - intros Htype. rewrite (fromFile_png _ _ Htype) in Hthrow.
    exact (fromPng_raises _ _ _ Hthrow).
  - intros Htype. rewrite (fromFile_webp _ _ Htype) in Hthrow.
    exact (fromWebp_raises _ _ _ Hthrow).
  - intros Htype. rewrite (fromFile_unsupported_type_run _ _ Htype) in Hthrow.
    now injection Hthrow as <-.
Qed.

(** X11 on the sample host: the exception of a WebP file whose
    description does not parse is the parser's. *)
Lemma fromFile_exceptions_witness :
  let tag := {| Exif.description := Some "{"; Exif.value := None |} in
  let h := Sample.host [] {[ "UserComment" := tag ]} in
  SyntaxError = NoMetadataFound \/ load h riff = Throw SyntaxError
  \/ exists text, json5_parse h text = Throw SyntaxError.
Proof.
  intros tag h.
  destruct (fromFile_exceptions h {| type := "image/webp"; content := riff |} SyntaxError
              eq_refl) as (_ & _ & Hwebp & _).
  exact (Hwebp eq_refl).
Defined.

(** *** What a successful extraction returns *)

Lemma fromWebp_returns h file t c :
  fromWebp h file = (t, Normal c) ->
  fallbackAvatar c = webp_avatar h file
  /\ exists t' text, t = (t' ++ [call_json5_parse text])%list
                     /\ json5_parse h text = Normal (metadata c).
Proof.
  unfold fromWebp. simpl.
  destruct (load h (content file)) as [tags|]; simpl; [|discriminate].
  unfold fromUserComment.
  destruct (tags !! "UserComment") as [tag|]; simpl; [|discriminate].
  destruct (Exif.description tag) as [text|]; simpl; [|discriminate].
  destruct (String.eqb text ""); simpl; [discriminate|].
  destruct (negb (String.eqb text "Undefined")); simpl.
  { destruct (json5_parse h text) as [card|] eqn:Hparse; simpl; [|discriminate].
    intros [= <- <-]. split; [reflexivity|].
    exists [await_arrayBuffer; call_load], text. now split. }
  destruct (Exif.value tag) as [[|data [|? ?]]|]; simpl; try discriminate.
  destruct (negb (String.eqb data "")); simpl; [|discriminate].
  unfold parseUserComment. simpl.
  destruct (json5_parse h data) as [card|] eqn:Hdirect; simpl.
  { intros [= <- <-]. split; [reflexivity|].
    exists [await_arrayBuffer; call_load], data. now split. }
  destruct (json5_parse h (TextDecoder_decode h _)) as [card|] eqn:Hdecoded; simpl;
    [|discriminate].
  intros [= <- <-]. split; [reflexivity|].
  eexists [await_arrayBuffer; call_load; call_json5_parse data; call_TextDecoder_decode _], _.
  split; [reflexivity | exact Hdecoded].
Qed.

Lemma fromJson_returns h file t c :
  fromJson h file = (t, Normal c) -> fallbackAvatar c = "".
Proof.
  unfold fromJson. simpl. destruct (JSON_parse h _); simpl; [|discriminate].
  now intros [= <- <-].
Qed.

(** X8. Whenever extraction from a WebP file succeeds, the metadata is
    what the permissive parser returned on the text of its last call,
    that call is the last event, and the fallback avatar is the data URI
    of the whole file. *)
Theorem fromFile_webp_returns (h : Host) (file : File) (t : list Event) (c : Character) :
  type file = "image/webp" ->
  fromFile h file = (t, Normal c) ->
  fallbackAvatar c = "data:image/webp;base64," +:+ Buffer_toString_base64 h (content file)
  /\ exists t' text, t = (t' ++ [call_json5_parse text])%list
                     /\ json5_parse h text = Normal (metadata c).
Proof.
  intros Htype Hrun. rewrite (fromFile_webp _ _ Htype) in Hrun.
  exact (fromWebp_returns _ _ _ _ Hrun).
Qed.

(** X8 on the sample host, on the byte-array path. *)
Lemma fromFile_webp_returns_witness :
  let tag := {| Exif.description := Some "Undefined"; Exif.value := Some ["123,125"] |} in
  let h := Sample.host [] {[ "UserComment" := tag ]} in
  let file := {| type := "image/webp"; content := riff |} in
  exists t c,
    fromFile h file = (t, Normal c)
    /\ fallbackAvatar c = "data:image/webp;base64," +:+ Sample.base64_encode riff
    /\ exists t' text, t = (t' ++ [call_json5_parse text])%list
                       /\ Sample.parse text = Normal (metadata c).
Proof.
  intros tag h file.
  destruct (fromFile h file) as [t [c|e]] eqn:Hrun;
    [|vm_compute in Hrun; discriminate Hrun].
  exists t, c. split; [reflexivity|].
  exact (fromFile_webp_returns h file t c eq_refl Hrun).
Defined.

(** X2. Where the avatar of an extracted card comes from when the
    record has none of its own (its [avatar] is missing, falsy or
    ["none"]): the accessor returns the fallback avatar, which is [""]
    for a JSON file, the data URI of the encoded residual chunks for a
    PNG file, and the data URI of the whole file for a WebP file. *)
Theorem avatar_after_extraction (h : Host) (file : File) (t : list Event) (c : Character)
    (ps : list (string * value)) :
  fromFile h file = (t, Normal c) ->
  metadata c = Object ps ->
  no_own_avatar ps ->
  avatar c = Normal (Str (fallbackAvatar c))
  /\ (type file = "application/json" -> fallbackAvatar c = "")
  /\ (type file = "image/png" ->
      exists chunks encoded,
        pngExtract h (content file) = Normal chunks
        /\ pngEncode h (residual chunks) = Normal encoded
        /\ fallbackAvatar c = "data:image/png;base64," +:+ Buffer_toString_base64 h encoded)
  /\ (type file = "image/webp" ->
      fallbackAvatar c
      = "data:image/webp;base64," +:+ Buffer_toString_base64 h (content file)).
Proof.
  intros Hrun Hmetadata Hnone. split; [|split; [|split]].
  - unfold avatar. rewrite Hmetadata, !get_object. unfold no_own_avatar in Hnone.
    destruct (Js.lookup_property "avatar" ps) as [v|]; simpl; [|reflexivity].
    destruct Hnone as [Hfalsy | ->]; [now rewrite Hfalsy | reflexivity].
  - intros Htype. rewrite (fromFile_json _ _ Htype) in Hrun.
    exact (fromJson_returns _ _ _ _ Hrun).
  - intros Htype. rewrite (fromFile_png _ _ Htype) in Hrun.
    exact (fromPng_returns _ _ _ _ Hrun).
  - intros Htype. rewrite (fromFile_webp _ _ Htype) in Hrun.
    exact (proj1 (fromWebp_returns _ _ _ _ Hrun)).
Qed.

(** X2 on the sample host: a WebP card whose avatar is ["none"] shows
    the file itself. *)
Lemma avatar_after_extraction_witness :
  let text := Sample.quoted "{'name': 'Ann', 'avatar': 'none'}" in
  let tag := {| Exif.description := Some text; Exif.value := None |} in
  let h := Sample.host [] {[ "UserComment" := tag ]} in
  let file := {| type := "image/webp"; content := riff |} in
  exists t c,
    fromFile h file = (t, Normal c)
    /\ avatar c = Normal (Str ("data:image/webp;base64," +:+ Sample.base64_encode riff)).
Proof.
  intros text tag h file.
  destruct (fromFile h file) as [t [c|e]] eqn:Hrun;
    [|vm_compute in Hrun; discriminate Hrun].
  exists t, c. split; [reflexivity|].
  assert (Hmetadata : metadata c = Object [("name", Str "Ann"); ("avatar", Str "none")])
    by (vm_compute in Hrun; now injection Hrun as _ <-).
  destruct (avatar_after_extraction h file t c _ Hrun Hmetadata) as (Havatar & _ & _ & Hwebp).
  - right. reflexivity.
  - rewrite Havatar, (Hwebp eq_refl). reflexivity.
Defined.

(** *** Several cards in one PNG file *)

Lemma find_first_chara (pre post : list Png.Text) (extChunk : Png.Text) :
  Forall (fun d => Png.keyword d <> "chara") pre ->
  Png.keyword extChunk = "chara" ->
  List.find (fun d => String.eqb (Png.keyword d) "chara") (pre ++ extChunk :: post)
  = Some extChunk.
Proof.
  intros Hpre Hext. induction Hpre as [|d pre Hd _ IH]; simpl.
  - now rewrite Hext.
  - destruct (String.eqb_spec (Png.keyword d) "chara"); [contradiction | exact IH].
Qed.

(** X10. When several [tEXt] chunks have the keyword [chara], the card
    is the first of them in the order of the file: all text chunks are
    decoded, the strict parser is then called on the payload of that
    first chunk, and on nothing else. *)
Theorem fromFile_png_first_chara (h : Host) (file : File) (chunks : list Png.Chunk)
    (pre post : list Png.Text) (extChunk : Png.Text) :
  type file = "image/png" ->
  pngExtract h (content file) = Normal chunks ->
  Forall2 (fun chunk d => decode h (Png.data chunk) = Normal d)
          (filter (fun chunk => Png.name chunk = "tEXt") chunks) (pre ++ extChunk :: post) ->
  Forall (fun d => Png.keyword d <> "chara") pre ->
  Png.keyword extChunk = "chara" ->
  exists t,
    (fromFile h file).1
    = (png_prefix chunks
       ++ call_JSON_parse (Buffer_from_base64_toString_utf8 h (Png.text extChunk)) :: t)%list
    /\ Forall (fun ev => json_call ev = false) t.
Proof.
  intros Htype Hextract Hdecoded Hpre Hext.
  enter_png Htype Hextract Hdecoded. rewrite (find_first_chara _ _ _ Hpre Hext). simpl.
  destruct (JSON_parse h _) as [card|]; simpl; [|exists []; split; [reflexivity | constructor]].
  destruct (pngEncode h _) as [encoded|]; simpl;
    [|exists [call_pngEncode]; split; [reflexivity | now repeat constructor]].
  exists [call_pngEncode].
  destruct (Js.get card "spec_version") as [version|]; simpl;
    [|split; [reflexivity | now repeat constructor]].
  destruct (Js.strict_eq_str version "2.0"); simpl;
    [destruct (Js.get card "data"); simpl|];
    (split; [now rewrite ?app_nil_r | now repeat constructor]).
Qed.

(** X10 on the sample host: a card of the older schema followed by a
    version-2 card. *)
Lemma fromFile_png_first_chara_witness :
  let chunks := [IHDR; chara_v1; chara_v2; IDAT; IEND] in
  exists t,
    (fromFile (Sample.host chunks ∅) (png_file chunks)).1
    = ([await_arrayBuffer; call_pngExtract; call_decode (Png.data chara_v1);
        call_decode (Png.data chara_v2)]
       ++ call_JSON_parse (Sample.quoted "{'char_name':'Ann'}") :: t)%list
    /\ Forall (fun ev => json_call ev = false) t.
Proof.
  intros chunks.
  assert (Hextract : pngExtract (Sample.host chunks ∅) (content (png_file chunks))
                     = Normal chunks) by (vm_compute; reflexivity).
  apply (fromFile_png_first_chara (Sample.host chunks ∅) (png_file chunks) chunks []
           [{| Png.keyword := "chara";
               Png.text := "eyJzcGVjX3ZlcnNpb24iOiIyLjAiLCJkYXRhIjp7Im5hbWUiOiJBbm4ifX0=" |}]
           {| Png.keyword := "chara"; Png.text := "eyJjaGFyX25hbWUiOiJBbm4ifQ==" |}
           eq_refl Hextract);
    [repeat constructor | constructor | reflexivity].
Defined.

(** *** What the accessors never return *)

(** X14. Whatever the metadata holds, [description] and [name] never
    return a falsy value other than [""] (no [undefined], [null], [0] or
    [false]), and [avatar] returns either the fallback avatar or a truthy
    value of the record other than ["none"]. *)
Theorem accessors_never_falsy (v : value) (fallback : option string) (r : value) :
  let this := new_Character v fallback in
  (description this = Normal r -> r = Str "" \/ Js.truthy r = true)
  /\ (name this = Normal r -> r = Str "" \/ Js.truthy r = true)
  /\ (avatar this = Normal r ->
      r = Str (default "" fallback) \/ (Js.truthy r = true /\ r <> Str "none")).
Proof.
  intros this. subst this. unfold description, name, avatar. simpl metadata.
  assert (Hor : forall a b, (if Js.truthy a then mret a else Normal b)
                            ≫= (fun either => mret (Js.or either (Str ""))) = Normal r ->
                            r = Str "" \/ Js.truthy r = true).
  { intros a b. unfold Js.or. destruct (Js.truthy a) eqn:Ha; simpl.
    - rewrite Ha. intros [= <-]. now right.
    - destruct (Js.truthy b) eqn:Hb; intros [= <-]; [now right | now left]. }
  destruct v as [| |b|n|s|l|ps]; simpl.
  1-2: repeat split; discriminate.
  1-4: repeat split; intros [= <-]; now left.
  split; [apply Hor | split; [apply Hor |]].
  destruct (Js.truthy (default Undefined (Js.lookup_property "avatar" ps))) eqn:Htruthy;
    simpl; [|intros [= <-]; now left].
  destruct (Js.strict_eq_str (default Undefined (Js.lookup_property "avatar" ps)) "none")
    eqn:Hnone; simpl; intros [= <-]; [now left|].
  right. split; [exact Htruthy|]. intros Heq. rewrite Heq in Hnone. discriminate Hnone.
Qed.

(** X14 on a record whose [name] is [null] and whose [char_name] is
    [0]. *)
Lemma accessors_never_falsy_witness :
  name (new_Character (Object [("name", Null); ("char_name", Number 0)]) None)
  = Normal (Str "")
  /\ (Str "" = Str "" \/ Js.truthy (Str "") = true).
Proof.
  split; [reflexivity|].
  exact (proj1 (proj2 (accessors_never_falsy
                         (Object [("name", Null); ("char_name", Number 0)]) None (Str "")))
               eq_refl).
Defined.
